(** * Voice-agent relay: session bookkeeping of the realtime audio bridge

    A shallow embedding of [src/services/openai_realtime_service.py]
    (session set-up, the two pumps, the audio-delta handler, the
    speech-interruption handler, the mark queue, context injection and
    closing) and of [cleanup_call_session] from [src/main.py] with the
    services it calls, together with the properties the specification
    states about them. *)

From Stdlib Require Import ZArith NArith Ascii String List Bool Lia Sorted.
From Stdlib Require Import SpecFloat.
From stdpp Require Import base option list strings gmap.

Set Warnings "-register-all".
Local Open Scope N_scope.

(** ** Base64, as [base64.b64encode] / [base64.b64decode] compute it

    [_handle_audio_delta] re-encodes the model's audio with
    [base64.b64encode(base64.b64decode(delta))].  Both functions belong to
    the Python standard library; they are written here after RFC 4648 and
    CPython's [binascii] ([b2a_base64] and the non-strict [a2b_base64]).
    A Python [bytes] value is a [list ascii] (one [ascii] per octet) and an
    ASCII [str] is a [string]. *)
Module Base64.

Definition bytes := list ascii.

Definition table_b2a_base64 : string :=
  "ABCDEFGHIJKLMNOPQRSTUVWXYZabcdefghijklmnopqrstuvwxyz0123456789+/".

Definition BASE64_PAD : ascii := "="%char.

(** [table_b2a_base64[this_ch]] *)
Definition b2a (this_ch : N) : ascii :=
  match String.get (N.to_nat this_ch) table_b2a_base64 with
  | Some c => c
  | None => BASE64_PAD
  end.

(** [table_a2b_base64[this_ch]]: the sextet a character stands for, and
    [None] where CPython's table holds the "not in the alphabet" mark. *)
Definition table_a2b_base64 (c : ascii) : option N :=
  let n := N_of_ascii c in
  if (65 <=? n) && (n <=? 90) then Some (n - 65)
  else if (97 <=? n) && (n <=? 122) then Some (n - 71)
  else if (48 <=? n) && (n <=? 57) then Some (n + 4)
  else if n =? 43 then Some 62
  else if n =? 47 then Some 63
  else None.

(** The four characters of a full three-octet group. *)
Definition encode_quad (x y z : N) : string :=
  String (b2a (N.shiftr x 2))
 (String (b2a (N.lor (N.shiftl (N.land x 3) 4) (N.shiftr y 4)))
 (String (b2a (N.lor (N.shiftl (N.land y 15) 2) (N.shiftr z 6)))
 (String (b2a (N.land z 63)) EmptyString))).

Fixpoint b64encode (s : bytes) : string :=
  match s with
  | [] => EmptyString
  | [a] =>
      let x := N_of_ascii a in
      String (b2a (N.shiftr x 2))
     (String (b2a (N.shiftl (N.land x 3) 4))
     (String BASE64_PAD (String BASE64_PAD EmptyString)))
  | [a; b] =>
      let x := N_of_ascii a in
      let y := N_of_ascii b in
      String (b2a (N.shiftr x 2))
     (String (b2a (N.lor (N.shiftl (N.land x 3) 4) (N.shiftr y 4)))
     (String (b2a (N.shiftl (N.land y 15) 2))
     (String BASE64_PAD EmptyString)))
  | a :: b :: c :: rest =>
      String.append
        (encode_quad (N_of_ascii a) (N_of_ascii b) (N_of_ascii c))
        (b64encode rest)
  end.

Inductive b64_error :=
| NonAsciiInput        (* ValueError: string argument should contain only ASCII characters *)
| DataCharsOneMore     (* binascii.Error: number of data characters cannot be 1 more than a multiple of 4 *)
| IncorrectPadding.    (* binascii.Error: Incorrect padding *)

(** The loop of [binascii.a2b_base64] with [strict_mode] off: characters
    outside the alphabet are skipped, a complete pad sequence ends the
    parse, and what is left of an unfinished quad is an error. *)
Fixpoint a2b_base64 (ascii_data : string) (quad_pos leftchar pads : N)
    (bin_data : bytes) : b64_error + bytes :=
  match ascii_data with
  | EmptyString =>
      if quad_pos =? 0 then inr bin_data
      else if quad_pos =? 1 then inl DataCharsOneMore
      else inl IncorrectPadding
  | String c rest =>
      if Ascii.eqb c BASE64_PAD then
        if 2 <=? quad_pos then
          if 4 <=? quad_pos + (pads + 1) then inr bin_data
          else a2b_base64 rest quad_pos leftchar (pads + 1) bin_data
        else a2b_base64 rest quad_pos leftchar pads bin_data
      else
        match table_a2b_base64 c with
        | None => a2b_base64 rest quad_pos leftchar pads bin_data
        | Some this_ch =>
            if quad_pos =? 0 then
              a2b_base64 rest 1 this_ch 0 bin_data
            else if quad_pos =? 1 then
              a2b_base64 rest 2 (N.land this_ch 15) 0
                (bin_data ++ [ascii_of_N (N.lor (N.shiftl leftchar 2) (N.shiftr this_ch 4))])
            else if quad_pos =? 2 then
              a2b_base64 rest 3 (N.land this_ch 3) 0
                (bin_data ++ [ascii_of_N (N.lor (N.shiftl leftchar 4) (N.shiftr this_ch 2))])
            else
              a2b_base64 rest 0 0 0
                (bin_data ++ [ascii_of_N (N.lor (N.shiftl leftchar 6) this_ch)])
        end
  end.

Definition is_ascii_str (s : string) : bool :=
  forallb (fun c => N_of_ascii c <? 128) (list_ascii_of_string s).

(** [base64.b64decode(s)] for a [str] argument: the text is first encoded
    as ASCII, then handed to [a2b_base64]. *)
Definition b64decode (s : string) : b64_error + bytes :=
  if is_ascii_str s then a2b_base64 s 0 0 0 [] else inl NonAsciiInput.

End Base64.

(** ** Python values the relay handles

    Every message on either websocket goes through [json.loads]; what the
    handlers then index, compare and store are the resulting Python
    objects.  A [float] is the IEEE 754 value it holds (sign, mantissa
    and binary exponent, or an infinity or a NaN).  A [str] is the
    sequence of its code points, one [ascii] each: the strings of the
    model are those whose code points are below 256. *)
Module Py.

Inductive json :=
| JNull
| JBool (b : bool)
| JInt (n : Z)
| JFloat (f : spec_float)
| JStr (s : string)
| JList (l : list json)
| JDict (items : list (string * json)).

Inductive exn :=
| JSONDecodeError
| KeyError (key : string)
| TypeError
| AttributeError
| ValueError
| OverflowError
| BinasciiError
| ConnectionClosed.

(** What [json.loads(message)] does with a text frame: it raises
    [JSONDecodeError], or returns the decoded object. *)
Inductive text_frame :=
| Malformed (raw : string)
| Text (decoded : json).

Definition json_loads (message : text_frame) : exn + json :=
  match message with
  | Malformed _ => inl JSONDecodeError
  | Text j => inr j
  end.

Fixpoint assoc (k : string) (items : list (string * json)) : option json :=
  match items with
  | [] => None
  | (k', v) :: rest => if String.eqb k k' then Some v else assoc k rest
  end.

(** [d[k]] with a [str] key. *)
Definition getitem (d : json) (k : string) : exn + json :=
  match d with
  | JDict items =>
      match assoc k items with
      | Some v => inr v
      | None => inl (KeyError k)
      end
  | _ => inl TypeError
  end.

(** [d.get(k)] *)
Definition dict_get (d : json) (k : string) : exn + json :=
  match d with
  | JDict items =>
      match assoc k items with
      | Some v => inr v
      | None => inr JNull
      end
  | _ => inl AttributeError
  end.

(** [v == s] for a [str] literal [s]. *)
Definition eq_str (v : json) (s : string) : bool :=
  match v with
  | JStr t => String.eqb t s
  | _ => false
  end.

Fixpoint is_substring (k s : string) : bool :=
  String.prefix k s ||
  match s with
  | EmptyString => false
  | String _ s' => is_substring k s'
  end.

(** [k in d] with a [str] on the left: a key of a dictionary, an element
    of a list, a substring of a string. *)
Definition contains (d : json) (k : string) : exn + bool :=
  match d with
  | JDict items =>
      match assoc k items with
      | Some _ => inr true
      | None => inr false
      end
  | JList l => inr (existsb (fun v => eq_str v k) l)
  | JStr s => inr (is_substring k s)
  | _ => inl TypeError
  end.

(** [v in names] for a list of [str] literals. *)
Definition in_strs (v : json) (names : list string) : bool :=
  existsb (eq_str v) names.

(** Truth value of an object, as [if v:] tests it. *)
Definition truthy (v : json) : bool :=
  match v with
  | JNull => false
  | JBool b => b
  | JInt n => negb (n =? 0)%Z
  | JFloat f => match f with S754_zero _ => false | _ => true end
  | JStr s => negb (String.eqb s EmptyString)
  | JList l => match l with [] => false | _ => true end
  | JDict items => match items with [] => false | _ => true end
  end.

(** *** [int(v)] *)

(** The characters [int] skips at either end of a [str]: the ASCII
    whitespace of [Py_ISSPACE] (tab, line feed, vertical tab, form feed,
    carriage return, space) and, of the code points from 127 up, the
    Unicode whitespace U+0085 and U+00A0, which [int] turns into spaces
    first.  The separators U+001C to U+001F are whitespace for
    [str.strip] but not here. *)
Definition is_space (c : ascii) : bool :=
  let n := N_of_ascii c in
  ((9 <=? n) && (n <=? 13)) || (n =? 32) || (n =? 133) || (n =? 160).

Fixpoint lstrip (l : list ascii) : list ascii :=
  match l with
  | c :: rest => if is_space c then lstrip rest else l
  | [] => []
  end.

Definition strip (l : list ascii) : list ascii :=
  rev (lstrip (rev (lstrip l))).

Definition digit_val (c : ascii) : option Z :=
  let n := N_of_ascii c in
  if (48 <=? n) && (n <=? 57) then Some (Z.of_N (n - 48)) else None.

(** Decimal digits, single underscores allowed between two digits. *)
Fixpoint parse_digits (l : list ascii) (acc : Z) (after_digit : bool) : option Z :=
  match l with
  | [] => if after_digit then Some acc else None
  | c :: rest =>
      match digit_val c with
      | Some d => parse_digits rest (10 * acc + d)%Z true
      | None =>
          if Ascii.eqb c "_"%char && after_digit
          then parse_digits rest acc false
          else None
      end
  end.

Definition count_digits (l : list ascii) : nat :=
  List.length
    (List.filter
       (fun c => match digit_val c with Some _ => true | None => false end) l).

(** [sys.int_info.default_max_str_digits] *)
Definition max_str_digits : nat := 4300.

Definition int_of_str (s : string) : option Z :=
  let body := strip (list_ascii_of_string s) in
  if Nat.ltb max_str_digits (count_digits body) then None
  else
    match body with
    | "-"%char :: ds => Z.opp <$> parse_digits ds 0%Z false
    | "+"%char :: ds => parse_digits ds 0%Z false
    | ds => parse_digits ds 0%Z false
    end.

(** [int(x)] of a float: the value with its fraction cut off;
    [OverflowError] for an infinity, [ValueError] for a NaN. *)
Definition int_of_float (f : spec_float) : exn + Z :=
  match f with
  | S754_zero _ => inr 0%Z
  | S754_infinity _ => inl OverflowError
  | S754_nan => inl ValueError
  | S754_finite s m e =>
      let magnitude := Z.shiftl (Z.pos m) e in
      inr (if s then - magnitude else magnitude)%Z
  end.

Definition py_int (v : json) : exn + Z :=
  match v with
  | JInt n => inr n
  | JBool b => inr (if b then 1 else 0)%Z
  | JFloat f => int_of_float f
  | JStr s =>
      match int_of_str s with
      | Some n => inr n
      | None => inl ValueError
      end
  | _ => inl TypeError
  end.

(** [base64.b64decode(v)] *)
Definition py_b64decode (v : json) : exn + Base64.bytes :=
  match v with
  | JStr s =>
      match Base64.b64decode s with
      | inr b => inr b
      | inl Base64.NonAsciiInput => inl ValueError
      | inl _ => inl BinasciiError
      end
  | _ => inl TypeError
  end.

End Py.

(** ** The relay of [OpenAIRealtimeService] *)
Module Relay.
Import Py.

(** The [session_data] dictionary built by [create_session], restricted
    to the keys the pumps read or write.  ["stream_sid"] is absent until
    the telephony ["start"] event stores it; [None] in
    ["last_assistant_item"] is [JNull]. *)
Record session_data := mk_session {
  session_id : string;
  is_active : bool;
  stream_sid : option json;
  latest_media_timestamp : Z;
  last_assistant_item : json;
  mark_queue : list string;
  response_start_timestamp : option Z;
}.

Definition set_stream_sid (v : json) (sd : session_data) : session_data :=
  mk_session (session_id sd) (is_active sd) (Some v)
    (latest_media_timestamp sd) (last_assistant_item sd) (mark_queue sd)
    (response_start_timestamp sd).

Definition set_latest_media_timestamp (t : Z) (sd : session_data) : session_data :=
  mk_session (session_id sd) (is_active sd) (stream_sid sd)
    t (last_assistant_item sd) (mark_queue sd)
    (response_start_timestamp sd).

Definition set_last_assistant_item (v : json) (sd : session_data) : session_data :=
  mk_session (session_id sd) (is_active sd) (stream_sid sd)
    (latest_media_timestamp sd) v (mark_queue sd)
    (response_start_timestamp sd).

Definition set_mark_queue (q : list string) (sd : session_data) : session_data :=
  mk_session (session_id sd) (is_active sd) (stream_sid sd)
    (latest_media_timestamp sd) (last_assistant_item sd) q
    (response_start_timestamp sd).

Definition set_response_start_timestamp (t : option Z) (sd : session_data) : session_data :=
  mk_session (session_id sd) (is_active sd) (stream_sid sd)
    (latest_media_timestamp sd) (last_assistant_item sd) (mark_queue sd)
    t.

(** [session_data.get("stream_sid")] *)
Definition get_stream_sid (sd : session_data) : json :=
  match stream_sid sd with
  | Some v => v
  | None => JNull
  end.

(** The state [create_session] returns. *)
Definition create_session (sid : string) : session_data :=
  mk_session sid true None 0%Z JNull [] None.

(** One end of a websocket, seen from the relay: whether it still
    accepts messages, and the messages written to it, oldest first. *)
Record transport := mk_transport {
  is_open : bool;
  sent : list json;
}.

Inductive log_record :=
| Info (fmt : string) (args : list json)
| Debug (fmt : string) (args : list json)
| Error (fmt : string) (e : exn).

(** Everything a handler can touch: the shared session dictionary, the
    model websocket ([session_data["websocket"]]), the telephony
    websocket, the events the generator has yielded to its consumer, and
    the log. *)
Record world := mk_world {
  session : session_data;
  openai_ws : transport;
  twilio_ws : transport;
  yielded : list json;
  log : list log_record;
}.

(** *** Handlers as state transformers that may raise *)

Definition M (A : Type) : Type := world -> world * (exn + A).

Definition raise {A} (e : exn) : M A := fun w => (w, inl e).

#[global] Instance M_ret : MRet M := fun A a w => (w, inr a).

#[global] Instance M_bind : MBind M := fun A B k m w =>
  match m w with
  | (w', inr a) => k a w'
  | (w', inl e) => (w', inl e)
  end.

Definition ret {A} (a : A) : M A := mret a.

(** [try: body  except Exception as e: handler(e)] *)
Definition try_except {A} (body : M A) (handler : exn -> M A) : M A :=
  fun w =>
    match body w with
    | (w', inr a) => (w', inr a)
    | (w', inl e) => handler e w'
    end.

Definition lift {A} (r : exn + A) : M A := fun w => (w, r).

Definition get_session : M session_data := fun w => (w, inr (session w)).

Definition update_session (f : session_data -> session_data) : M unit :=
  fun w =>
    (mk_world (f (session w)) (openai_ws w) (twilio_ws w) (yielded w) (log w),
     inr tt).

Definition write (msg : json) (t : transport) : transport :=
  mk_transport (is_open t) (sent t ++ [msg]).

(** [await openai_ws.send(json.dumps(msg))] *)
Definition openai_send (msg : json) : M unit :=
  fun w =>
    if is_open (openai_ws w) then
      (mk_world (session w) (write msg (openai_ws w)) (twilio_ws w)
         (yielded w) (log w), inr tt)
    else (w, inl ConnectionClosed).

(** [await twilio_ws.send_json(msg)] *)
Definition twilio_send_json (msg : json) : M unit :=
  fun w =>
    if is_open (twilio_ws w) then
      (mk_world (session w) (openai_ws w) (write msg (twilio_ws w))
         (yielded w) (log w), inr tt)
    else (w, inl ConnectionClosed).

(** [await session_data["websocket"].close()].  [closing] is what the
    call does: it returns, and the connection is closed, or it raises. *)
Definition openai_close (closing : exn + unit) : M unit :=
  fun w =>
    match closing with
    | inr _ =>
        (mk_world (session w) (mk_transport false (sent (openai_ws w)))
           (twilio_ws w) (yielded w) (log w), inr tt)
    | inl e => (w, inl e)
    end.

(** [yield ev] *)
Definition yield_ (ev : json) : M unit :=
  fun w =>
    (mk_world (session w) (openai_ws w) (twilio_ws w) (yielded w ++ [ev])
       (log w), inr tt).

Definition logger (r : log_record) : M unit :=
  fun w =>
    (mk_world (session w) (openai_ws w) (twilio_ws w) (yielded w)
       (log w ++ [r]), inr tt).

Definition when (b : bool) (m : M unit) : M unit :=
  if b then m else ret tt.

(** [async for x in xs: body(x)] over the frames a connection delivers
    before it closes. *)
Fixpoint for_each {A} (body : A -> M unit) (xs : list A) : M unit :=
  match xs with
  | [] => ret tt
  | x :: rest => body x;; for_each body rest
  end.

Definition log_event_types : list string :=
  [ "error"; "response.content.done"; "rate_limits.updated";
    "response.done"; "input_audio_buffer.committed";
    "input_audio_buffer.speech_stopped"; "input_audio_buffer.speech_started";
    "session.created"; "response.audio.delta"; "conversation.item.created" ]%string.

Section Service.
(** [settings.debug], which is also [self.show_timing_math]. *)
Variable debug : bool.

Definition show_timing_math : bool := debug.

(** Optional callbacks of the two pumps.  They receive the shared
    session dictionary, which is part of the world here. *)
Variable on_session_start : option (M unit).
Variable on_audio_response : option (json -> M unit).
Variable on_text_response : option (json -> M unit).
Variable on_speech_started : option (M unit).

Definition _send_mark : M unit :=
  try_except
    (sd ← get_session;
     let stream_sid := get_stream_sid sd in
     when (truthy stream_sid)
       (twilio_send_json
          (JDict [("event", JStr "mark"); ("streamSid", stream_sid);
                  ("mark", JDict [("name", JStr "responsePart")])]%string);;
        update_session
          (fun sd => set_mark_queue (mark_queue sd ++ ["responsePart"%string]) sd)))
    (fun e => logger (Error "Error sending mark" e)).

Definition _handle_audio_delta (response : json) : M unit :=
  try_except
    (delta ← lift (getitem response "delta");
     raw ← lift (py_b64decode delta);
     let audio_payload := Base64.b64encode raw in
     sd ← get_session;
     twilio_send_json
       (JDict [("event", JStr "media"); ("streamSid", get_stream_sid sd);
               ("media", JDict [("payload", JStr audio_payload)])]%string);;
     sd ← get_session;
     match response_start_timestamp sd with
     | None =>
         update_session
           (set_response_start_timestamp (Some (latest_media_timestamp sd)));;
         when show_timing_math
           (logger (Debug "Response start timestamp: {}ms"
                      [JInt (latest_media_timestamp sd)]))
     | Some _ => ret tt
     end;;
     item ← lift (dict_get response "item_id");
     when (truthy item)
       (item_id ← lift (getitem response "item_id");
        update_session (set_last_assistant_item item_id));;
     _send_mark)
    (fun e => logger (Error "Error handling audio delta" e)).

Definition _handle_speech_interruption : M unit :=
  try_except
    (sd ← get_session;
     match mark_queue sd, response_start_timestamp sd with
     | _ :: _, Some response_start =>
         let elapsed_time :=
           (latest_media_timestamp sd - response_start)%Z in
         when show_timing_math
           (logger (Debug "Interruption after {}ms" [JInt elapsed_time]));;
         when (truthy (last_assistant_item sd))
           (openai_send
              (JDict [("type", JStr "conversation.item.truncate");
                      ("item_id", last_assistant_item sd);
                      ("content_index", JInt 0);
                      ("audio_end_ms", JInt elapsed_time)]%string));;
         twilio_send_json
           (JDict [("event", JStr "clear");
                   ("streamSid", get_stream_sid sd)]%string);;
         update_session (set_mark_queue []);;
         update_session (set_last_assistant_item JNull);;
         update_session (set_response_start_timestamp None)
     | _, _ => ret tt
     end)
    (fun e => logger (Error "Error handling speech interruption" e)).

(** Body of the loop of [handle_twilio_to_openai], for one message. *)
Definition twilio_message (message : text_frame) : M unit :=
  data ← lift (json_loads message);
  event ← lift (getitem data "event");
  if eq_str event "media" then
    media ← lift (getitem data "media");
    timestamp ← lift (getitem media "timestamp");
    t ← lift (py_int timestamp);
    update_session (set_latest_media_timestamp t);;
    media ← lift (getitem data "media");
    payload ← lift (getitem media "payload");
    openai_send
      (JDict [("type", JStr "input_audio_buffer.append");
              ("audio", payload)]%string)
  else if eq_str event "start" then
    start ← lift (getitem data "start");
    stream_sid ← lift (getitem start "streamSid");
    update_session (set_stream_sid stream_sid);;
    update_session (set_response_start_timestamp None);;
    update_session (set_latest_media_timestamp 0);;
    update_session (set_last_assistant_item JNull);;
    logger (Info "Twilio stream started: {}" [stream_sid]);;
    match on_session_start with
    | Some callback => callback
    | None => ret tt
    end
  else if eq_str event "mark" then
    sd ← get_session;
    match mark_queue sd with
    | _ :: rest => update_session (set_mark_queue rest)
    | [] => ret tt
    end
  else ret tt.

Definition handle_twilio_to_openai (messages : list text_frame) : M unit :=
  try_except
    (for_each twilio_message messages)
    (fun e =>
       logger (Error "Error in Twilio to OpenAI handler" e);;
       raise e).

(** Body of the loop of [handle_openai_to_twilio], for one message.
    [response.get('type')] is evaluated once: no branch condition
    changes [response]. *)
Definition openai_message (message : text_frame) : M unit :=
  response ← lift (json_loads message);
  type_ ← lift (getitem response "type");
  when (in_strs type_ log_event_types)
    (logger (Info "OpenAI event: {}" [type_]);;
     when debug (logger (Debug "Full response: {}" [response])));;
  type_ ← lift (dict_get response "type");
  has_delta ←
    (if eq_str type_ "response.audio.delta"
     then lift (contains response "delta") else lift (inr false));
  if (has_delta : bool) then
    _handle_audio_delta response;;
    match on_audio_response with
    | Some callback => callback response
    | None => ret tt
    end
  else if eq_str type_ "response.text.delta" then
    match on_text_response with
    | Some callback => callback response
    | None => ret tt
    end
  else if eq_str type_ "input_audio_buffer.speech_started" then
    logger (Info "Speech interruption detected" []);;
    _handle_speech_interruption;;
    match on_speech_started with
    | Some callback => callback
    | None => ret tt
    end
  else if eq_str type_ "conversation.item.created" then
    sd ← get_session;
    yield_ (JDict [("type", JStr "conversation_item"); ("data", response);
                   ("session_id", JStr (session_id sd))]%string)
  else if eq_str type_ "response.function_call_arguments.delta" then
    sd ← get_session;
    yield_ (JDict [("type", JStr "rag_query"); ("data", response);
                   ("session_id", JStr (session_id sd))]%string)
  else if eq_str type_ "response.done" then
    sd ← get_session;
    yield_ (JDict [("type", JStr "response_complete"); ("data", response);
                   ("session_id", JStr (session_id sd))]%string)
  else ret tt.

Definition handle_openai_to_twilio (messages : list text_frame) : M unit :=
  try_except
    (for_each openai_message messages)
    (fun e =>
       logger (Error "Error in OpenAI to Twilio handler" e);;
       raise e).

(** [close_session], where closing the websocket does [closing]. *)
Definition close_session (closing : exn + unit) : M unit :=
  try_except
    (update_session
       (fun sd =>
          mk_session (session_id sd) false (stream_sid sd)
            (latest_media_timestamp sd) (last_assistant_item sd)
            (mark_queue sd) (response_start_timestamp sd));;
     openai_close closing;;
     sd ← get_session;
     logger (Info "OpenAI session closed: {}" [JStr (session_id sd)]))
    (fun e => logger (Error "Error closing OpenAI session" e)).

(** Events of the two connections in the order in which the event
    loop runs their loop bodies.  The pumps are tasks of one event loop
    and give way only at an [await]; the mark queue is appended to and
    popped in stretches without one, so for the queue every schedule of
    the two pumps is one such sequence of whole loop bodies. *)
Inductive relay_event :=
| FromTwilio (message : text_frame)
| FromOpenAI (message : text_frame).

Definition relay_step (ev : relay_event) : M unit :=
  match ev with
  | FromTwilio message => twilio_message message
  | FromOpenAI message => openai_message message
  end.

End Service.
End Relay.

(** ** Wire shapes of section 6 of the specification *)
Module Wire.
Import Py.

(** [{type:"conversation.item.truncate", item_id, content_index:0, audio_end_ms}] *)
Definition truncate (item_id : json) (audio_end_ms : Z) : json :=
  JDict [("type", JStr "conversation.item.truncate");
         ("item_id", item_id);
         ("content_index", JInt 0);
         ("audio_end_ms", JInt audio_end_ms)]%string.

(** [{event:"clear", streamSid}] *)
Definition clear (streamSid : json) : json :=
  JDict [("event", JStr "clear"); ("streamSid", streamSid)]%string.

(** [{event:"media", streamSid, media:{payload}}] *)
Definition media (streamSid : json) (payload : string) : json :=
  JDict [("event", JStr "media"); ("streamSid", streamSid);
         ("media", JDict [("payload", JStr payload)])]%string.

(** [{event:"mark", streamSid, mark:{name:"responsePart"}}] *)
Definition mark (streamSid : json) : json :=
  JDict [("event", JStr "mark"); ("streamSid", streamSid);
         ("mark", JDict [("name", JStr "responsePart")])]%string.

(** [{type:"input_audio_buffer.append", audio}] *)
Definition audio_append (audio : json) : json :=
  JDict [("type", JStr "input_audio_buffer.append"); ("audio", audio)]%string.

(** Inbound telephony [{event:"media", media:{timestamp, payload}}] *)
Definition media_in (timestamp payload : json) : json :=
  JDict [("event", JStr "media");
         ("media", JDict [("timestamp", timestamp); ("payload", payload)])]%string.

(** Inbound telephony [{event:"mark", mark:{name}}] *)
Definition mark_in (name : string) : json :=
  JDict [("event", JStr "mark"); ("mark", JDict [("name", JStr name)])]%string.

(** Inbound telephony [{event:"start", start:{streamSid}}] *)
Definition start_in (streamSid : string) : json :=
  JDict [("event", JStr "start");
         ("start", JDict [("streamSid", JStr streamSid)])]%string.

(** Model-side [{type:"response.audio.delta", item_id, delta}] *)
Definition audio_delta (item_id delta : string) : json :=
  JDict [("type", JStr "response.audio.delta");
         ("item_id", JStr item_id); ("delta", JStr delta)]%string.

(** [{type:"conversation.item.create",
      item:{type:"message", role, content:[{type:"input_text", text}]}}] *)
Definition item_create (role text : string) : json :=
  JDict [("type", JStr "conversation.item.create");
         ("item",
          JDict [("type", JStr "message"); ("role", JStr role);
                 ("content",
                  JList [JDict [("type", JStr "input_text");
                                ("text", JStr text)]])])]%string.

(** [{type:"response.create"}] *)
Definition response_create : json :=
  JDict [("type", JStr "response.create")]%string.

(** [{type:"session.update", session:{...}}]: turn detection by the
    server's voice activity detection, G.711 u-law audio in both
    directions, text and audio modalities, at most 4096 output tokens. *)
Definition session_update (instructions voice : string) (temperature : json) : json :=
  JDict [("type", JStr "session.update");
         ("session",
          JDict [("turn_detection", JDict [("type", JStr "server_vad")]);
                 ("input_audio_format", JStr "g711_ulaw");
                 ("output_audio_format", JStr "g711_ulaw");
                 ("voice", JStr voice);
                 ("instructions", JStr instructions);
                 ("modalities", JList [JStr "text"; JStr "audio"]);
                 ("temperature", temperature);
                 ("max_response_output_tokens", JInt 4096)])]%string.

End Wire.

(** ** Session teardown of [main.py] *)
Module Main.
Import Py.

(** A [ConversationEntry] object, with the attributes teardown reads. *)
Record ConversationEntry := mk_entry {
  timestamp : string;
  speaker : string;
  text : string;
}.

(** An element of [call_session.conversation_log].  The field is
    declared as a list of [ConversationEntry]; the media-stream endpoint
    appends plain dictionaries to it. *)
Inductive log_item :=
| EntryObject (entry : ConversationEntry)
| EntryDict (d : json).

(** Legacy [AzureVoiceSession] objects, as [cleanup_session] uses them:
    [az_websocket] is [None] until the session is connected, and then
    says whether the connection is open. *)
Record AzureVoiceSession := mk_azure {
  az_session_id : string;
  az_is_active : bool;
  az_websocket : option bool;
}.

(** [call_session.azure_session]: the dictionary of an OpenAI realtime
    session together with its websocket, or a legacy object. *)
Inductive voice_session :=
| OpenAISession (w : Relay.world)
| LegacySession (v : AzureVoiceSession).

Record CallSession := mk_call {
  session_id : string;
  call_sid : string;
  user_id : option string;
  has_vendor_details : bool;
  start_time : Z;
  end_time : option Z;
  status : string;
  azure_session : option voice_session;
  conversation_log : list log_item;
}.

(** A row of the [call_metrics] table; [m_transcript] is the value whose
    JSON text is stored. *)
Record CallMetrics := mk_metrics {
  m_user_id : option string;
  m_call_id : string;
  m_call_duration : Z;
  m_transcript : json;
  m_summary : string;
  m_start_time : Z;
  m_end_time : Z;
}.

Record WebSocketConnection := mk_connection {
  c_is_active : bool;
}.

(** [logger.info(...)], [logger.error(f"...: {str(e)}")] for a caught
    exception [e], and [logger.error(...)] without one. *)
Inductive log_record :=
| Info (fmt : string) (args : list string)
| Error (fmt : string) (args : list string) (e : exn)
| Failed (fmt : string).

(** The module-level registries, the database table, the voice sessions
    teardown has handed to their service for closing (as that call left
    them), and the log. *)
Record server := mk_server {
  active_sessions : gmap string CallSession;
  connections : gmap string WebSocketConnection;
  azure_sessions : gmap string AzureVoiceSession;
  call_metrics : list CallMetrics;
  released : list voice_session;
  log : list log_record;
}.

Definition logger (r : log_record) (s : server) : server :=
  mk_server (active_sessions s) (connections s) (azure_sessions s)
    (call_metrics s) (released s) (log s ++ [r]).

(** What [client.table("call_metrics").insert(row).execute()] does:
    it stores the row and returns it, returns no data, or raises. *)
Inductive insert_outcome := Inserted | NoData | Raised (e : exn).

(** [json.dumps(call_session.conversation_log)]: the dictionaries
    serialise; a [ConversationEntry] object does not, and [json.dumps]
    raises [TypeError] at the first one. *)
Fixpoint json_dumps (conversation_log : list log_item) : exn + list json :=
  match conversation_log with
  | [] => inr []
  | EntryDict d :: rest =>
      match json_dumps rest with
      | inr ds => inr (d :: ds)
      | inl e => inl e
      end
  | EntryObject _ :: _ => inl TypeError
  end.

(** [[f"{entry.speaker}: {entry.text}" for entry in conversation_log]]:
    a dictionary has no attribute [speaker]. *)
Fixpoint conversation_lines (conversation_log : list log_item) :
    exn + list string :=
  match conversation_log with
  | [] => inr []
  | EntryObject entry :: rest =>
      match conversation_lines rest with
      | inr lines => inr ((speaker entry +:+ ": " +:+ text entry) :: lines)
      | inl e => inl e
      end
  | EntryDict _ :: _ => inl AttributeError
  end.

Section Collaborators.
(** What the services teardown relies on do: whether [import openai]
    succeeds; what the chat completion requested for a conversation text
    yields, down to the stripped content of its first choice, or the
    exception raised on the way; whether the database accepts a row; and
    what closing the websocket of a voice session does. *)
Variable import_openai : exn + unit.
Variable chat_completion : string -> exn + string.
Variable insert : CallMetrics -> insert_outcome.
Variable websocket_close : exn + unit.

(** [azure_voice_service.generate_conversation_summary]: every failure
    is caught inside and answered with a fixed text. *)
Definition generate_conversation_summary (conversation_log : list log_item)
    (s : server) : server * string :=
  let attempt :=
    match import_openai with
    | inl e => inl e
    | inr _ =>
        match conversation_lines conversation_log with
        | inl e => inl e
        | inr lines => chat_completion (String.concat (String "010" "") lines)
        end
    end in
  match attempt with
  | inr summary =>
      (logger (Info "Conversation summary generated successfully" []) s, summary)
  | inl e =>
      (logger (Error "Error generating conversation summary" [] e) s,
       "Summary generation failed"%string)
  end.

(** [supabase_service.save_call_metrics]: every failure is caught
    inside and reported as [False], which the caller ignores.  Without
    vendor details, [vendor_details.to_dict()] raises. *)
Definition save_call_metrics (has_vendor : bool) (row : CallMetrics)
    (s : server) : server :=
  if has_vendor then
    match insert row with
    | Inserted =>
        logger (Info "Call metrics saved successfully for call {}" [m_call_id row])
          (mk_server (active_sessions s) (connections s) (azure_sessions s)
             (call_metrics s ++ [row]) (released s) (log s))
    | NoData => logger (Failed "Failed to save call metrics") s
    | Raised e => logger (Error "Error saving call metrics" [] e) s
    end
  else logger (Error "Error saving call metrics" [] AttributeError) s.

(** [openai_realtime_service.close_session(call_session.azure_session)] *)
Definition close_openai (w : Relay.world) (s : server) : server :=
  mk_server (active_sessions s) (connections s) (azure_sessions s)
    (call_metrics s)
    (released s ++ [OpenAISession (Relay.close_session websocket_close w).1])
    (log s).

(** [azure_voice_service.cleanup_session(voice_session)]: when closing
    the websocket raises, the session is neither marked inactive nor
    taken out of the service's registry. *)
Definition cleanup_session (v : AzureVoiceSession) (s : server) : server :=
  match az_websocket v, websocket_close with
  | Some _, inl e =>
      logger (Error "Error cleaning up Azure Voice session" [] e)
        (mk_server (active_sessions s) (connections s) (azure_sessions s)
           (call_metrics s) (released s ++ [LegacySession v]) (log s))
  | websocket, _ =>
      logger (Info "Azure Voice session cleaned up: {}" [az_session_id v])
        (mk_server (active_sessions s) (connections s)
           (delete (az_session_id v) (azure_sessions s))
           (call_metrics s)
           (released s ++
            [LegacySession
               (mk_azure (az_session_id v) false
                  (match websocket with Some _ => Some false | None => None end))])
           (log s))
  end.

(** [websocket_manager.disconnect(session_id)]; a failure of the
    connection's own [close()] is passed over. *)
Definition disconnect (session_id : string) (s : server) : server :=
  match connections s !! session_id with
  | Some _ =>
      logger (Info "WebSocket disconnected: {}" [session_id])
        (mk_server (active_sessions s) (delete session_id (connections s))
           (azure_sessions s) (call_metrics s) (released s) (log s))
  | None => s
  end.

(** [del active_sessions[call_session_id]], which raises [KeyError]
    for a missing key. *)
Definition del_active_session (call_session_id : string) (s : server) :
    exn + server :=
  match active_sessions s !! call_session_id with
  | Some _ =>
      inr (mk_server (delete call_session_id (active_sessions s))
             (connections s) (azure_sessions s) (call_metrics s)
             (released s) (log s))
  | None => inl (KeyError call_session_id)
  end.

(** [cleanup_call_session(call_session_id)], run at time [now].  The
    whole body is one [try]; whatever it raises is logged and teardown
    ends there. *)
Definition cleanup_call_session (now : Z) (call_session_id : string)
    (s : server) : server :=
  match active_sessions s !! call_session_id with
  | None => s
  | Some call_session =>
      let call_session :=
        mk_call (session_id call_session) (call_sid call_session)
          (user_id call_session) (has_vendor_details call_session)
          (start_time call_session) (Some now) "completed"
          (azure_session call_session) (conversation_log call_session) in
      let s :=
        mk_server (<[call_session_id := call_session]> (active_sessions s))
          (connections s) (azure_sessions s) (call_metrics s)
          (released s) (log s) in
      let duration := (now - start_time call_session)%Z in
      let '(s, summary) :=
        match conversation_log call_session with
        | _ :: _ => generate_conversation_summary (conversation_log call_session) s
        | [] => (s, "No conversation recorded"%string)
        end in
      let failed e :=
        logger (Error "Error cleaning up call session {}" [call_session_id] e) in
      match json_dumps (conversation_log call_session) with
      | inl e => failed e s
      | inr transcript =>
          let s :=
            save_call_metrics (has_vendor_details call_session)
              (mk_metrics (user_id call_session) (call_sid call_session)
                 duration (JList transcript) summary
                 (start_time call_session) now) s in
          let s :=
            match azure_session call_session with
            | Some (OpenAISession w) => close_openai w s
            | Some (LegacySession v) => cleanup_session v s
            | None => s
            end in
          match del_active_session call_session_id s with
          | inr s =>
              let s := disconnect call_session_id s in
              logger (Info "Call session {} cleaned up successfully"
                        [call_session_id]) s
          | inl e => failed e s
          end
      end
  end.

End Collaborators.
End Main.

(** ** Session set-up and context injection *)
Module Session.
Import Py Relay.

(** [_initialize_session] *)
Definition _initialize_session (system_message voice : string)
    (temperature : json) : M unit :=
  let session_update :=
    JDict [("type", JStr "session.update");
           ("session",
            JDict [("turn_detection", JDict [("type", JStr "server_vad")]);
                   ("input_audio_format", JStr "g711_ulaw");
                   ("output_audio_format", JStr "g711_ulaw");
                   ("voice", JStr voice);
                   ("instructions", JStr system_message);
                   ("modalities", JList [JStr "text"; JStr "audio"]);
                   ("temperature", temperature);
                   ("max_response_output_tokens", JInt 4096)])]%string in
  logger (Info "Sending session update: {}" [JStr voice]);;
  openai_send session_update.

(** [_send_initial_greeting] *)
Definition _send_initial_greeting (greeting_text : string) : M unit :=
  let initial_item :=
    JDict [("type", JStr "conversation.item.create");
           ("item",
            JDict [("type", JStr "message");
                   ("role", JStr "user");
                   ("content",
                    JList [JDict [("type", JStr "input_text");
                                  ("text",
                                   JStr ("Please say: " +:+ greeting_text))]])])]%string in
  openai_send initial_item;;
  openai_send (JDict [("type", JStr "response.create")]%string);;
  logger (Info "Initial greeting sent to OpenAI" []).

(** [await websockets.connect(...)].  [connecting] is what the call
    does: it raises, or yields a new connection, nothing written to it
    yet, which accepts messages ([true]) or has already been closed by
    the peer ([false]).  The connection becomes the [openai_ws] of the
    world. *)
Definition connect (connecting : exn + bool) : M unit :=
  fun w =>
    match connecting with
    | inr accepting =>
        (mk_world (session w) (mk_transport accepting []) (twilio_ws w)
           (yielded w) (log w), inr tt)
    | inl e => (w, inl e)
    end.

(** [create_session].  The world it runs in holds the telephony
    connection and the log; the model connection and the session
    dictionary are the ones it creates.  The temperature is a Python
    number, passed through as the JSON value it serialises to. *)
Definition create_session (connecting : exn + bool)
    (session_id system_message voice : string) (temperature : json)
    (initial_greeting : option string) : M session_data :=
  try_except
    (connect connecting;;
     _initialize_session system_message voice temperature;;
     match initial_greeting with
     | Some greeting =>
         when (negb (String.eqb greeting EmptyString))
           (_send_initial_greeting greeting)
     | None => ret tt
     end;;
     let session_data := mk_session session_id true None 0%Z JNull [] None in
     update_session (fun _ => session_data);;
     logger (Info "OpenAI real-time session created: {}" [JStr session_id]);;
     mret session_data)
    (fun e =>
       logger (Error "Error creating OpenAI session" e);;
       raise e).

(** [inject_rag_context] *)
Definition inject_rag_context (context question : string) : M unit :=
  try_except
    (let context_item :=
       JDict [("type", JStr "conversation.item.create");
              ("item",
               JDict [("type", JStr "message");
                      ("role", JStr "system");
                      ("content",
                       JList [JDict [("type", JStr "input_text");
                                     ("text",
                                      JStr ("Context for the question '"
                                            +:+ question +:+ "': "
                                            +:+ context))]])])]%string in
     openai_send context_item;;
     logger (Info "RAG context injected into conversation" []))
    (fun e => logger (Error "Error injecting RAG context" e)).

End Session.

Import Py Relay.
Local Open Scope Z_scope.

(** ** Definitions used to state the properties *)

(** A session right after [create_session], both connections open. *)
Definition fresh_world (sid : string) : world :=
  mk_world (create_session sid) (mk_transport true []) (mk_transport true [])
    [] [].

(** A session in the middle of playing a response: the telephony stream
    has started, one mark is outstanding. *)
Definition playing_world (start now : Z) (item : string) : world :=
  mk_world
    (mk_session "CA01" true (Some (JStr "MZ01")) now (JStr item)
       ["responsePart"%string] (Some start))
    (mk_transport true []) (mk_transport true []) [] [].

(** A session whose telephony stream has started and whose mark queue is
    empty. *)
Definition started_world : world :=
  mk_world (mk_session "CA01" true (Some (JStr "MZ01")) 0 JNull [] None)
    (mk_transport true []) (mk_transport true []) [] [].

(** The timestamp a text frame carries when [twilio_message] takes its
    ["media"] branch and reads it without raising. *)
Definition media_timestamp (m : text_frame) : option Z :=
  match m with
  | Text data =>
      match getitem data "event", getitem data "media" with
      | inr event, inr media =>
          if eq_str event "media" then
            match getitem media "timestamp", getitem media "payload" with
            | inr timestamp, inr _ =>
                match py_int timestamp with
                | inr t => Some t
                | inl _ => None
                end
            | _, _ => None
            end
          else None
      | _, _ => None
      end
  | Malformed _ => None
  end.

(** The largest timestamp of a non-empty sequence. *)
Definition max_timestamp (ts : list Z) : option Z :=
  match ts with
  | [] => None
  | t :: rest => Some (foldl Z.max t rest)
  end.

(** A string is canonical base64 (RFC 4648, sections 3.5 and 4) when it
    is made of groups of four alphabet characters, the last of which may
    end in one or two pad characters, and the bits the padding leaves
    unused are zero. *)
Fixpoint is_canonical_base64 (d : string) : bool :=
  match d with
  | EmptyString => true
  | String c0 (String c1 (String c2 (String c3 rest))) =>
      match Base64.table_a2b_base64 c0, Base64.table_a2b_base64 c1 with
      | Some _, Some n1 =>
          if Ascii.eqb c2 Base64.BASE64_PAD then
            Ascii.eqb c3 Base64.BASE64_PAD && String.eqb rest EmptyString &&
            (N.land n1 15 =? 0)%N
          else
            match Base64.table_a2b_base64 c2 with
            | Some n2 =>
                if Ascii.eqb c3 Base64.BASE64_PAD then
                  String.eqb rest EmptyString && (N.land n2 3 =? 0)%N
                else
                  match Base64.table_a2b_base64 c3 with
                  | Some _ => is_canonical_base64 rest
                  | None => false
                  end
            | None => false
            end
      | _, _ => false
      end
  | _ => false
  end.

(** The kind of side-channel event the generator yields for a model
    event type. *)
Definition side_channel_kind (type_ : string) : option string :=
  if String.eqb type_ "conversation.item.created" then
    Some "conversation_item"%string
  else if String.eqb type_ "response.function_call_arguments.delta" then
    Some "rag_query"%string
  else if String.eqb type_ "response.done" then
    Some "response_complete"%string
  else None.

(** The state an audio delta leaves behind: one media frame (and, when
    the stream id is set, one mark frame) written to telephony, the mark
    queue extended accordingly, the start timestamp anchored if it was
    unset, and a truthy item id recorded. *)
Definition after_audio_delta (payload : string) (item : json)
    (lg' : list log_record) (w : world) : world :=
  let sd := session w in
  let sid := get_stream_sid sd in
  mk_world
    (mk_session (session_id sd) (is_active sd) (stream_sid sd)
       (latest_media_timestamp sd)
       (if truthy item then item else last_assistant_item sd)
       (mark_queue sd ++ (if truthy sid then ["responsePart"%string] else []))
       (Some (default (latest_media_timestamp sd) (response_start_timestamp sd))))
    (openai_ws w)
    (mk_transport true
       (sent (twilio_ws w) ++
        Wire.media sid payload :: (if truthy sid then [Wire.mark sid] else [])))
    (yielded w) lg'.

(** What an event means to the mark queue. *)
Inductive queue_event := AudioDelta | MarkAck.

(** A model message that the pump treats as an audio delta and whose
    payload decodes. *)
Definition decodable_audio_delta (m : text_frame) : bool :=
  match m with
  | Text response =>
      match getitem response "type", getitem response "delta" with
      | inr type_, inr (JStr d) =>
          eq_str type_ "response.audio.delta" &&
          match Base64.b64decode d with inr _ => true | inl _ => false end
      | _, _ => false
      end
  | Malformed _ => false
  end.

(** A telephony message that takes the ["mark"] branch. *)
Definition is_mark (m : text_frame) : bool :=
  match m with
  | Text data =>
      match getitem data "event" with
      | inr event => eq_str event "mark"
      | inl _ => false
      end
  | Malformed _ => false
  end.

(** The queue event an event of the interleaving stands for. *)
Definition classify (ev : relay_event) : option queue_event :=
  match ev with
  | FromOpenAI m => if decodable_audio_delta m then Some AudioDelta else None
  | FromTwilio m => if is_mark m then Some MarkAck else None
  end.

(** Number of audio deltas, and of mark acknowledgments, in a sequence. *)
Fixpoint count_deltas (qs : list queue_event) : nat :=
  match qs with
  | [] => 0
  | AudioDelta :: rest => S (count_deltas rest)
  | MarkAck :: rest => count_deltas rest
  end.

Fixpoint count_marks (qs : list queue_event) : nat :=
  match qs with
  | [] => 0
  | AudioDelta :: rest => count_marks rest
  | MarkAck :: rest => S (count_marks rest)
  end.

(** Marks that arrive while the queue, [n] tokens long at the start, is
    empty. *)
Fixpoint ignored_marks (n : nat) (qs : list queue_event) : nat :=
  match qs with
  | [] => 0
  | AudioDelta :: rest => ignored_marks (S n) rest
  | MarkAck :: rest =>
      match n with
      | O => S (ignored_marks O rest)
      | S n' => ignored_marks n' rest
      end
  end.

(** [if session_data["mark_queue"]: session_data["mark_queue"].pop(0)] *)
Definition pop_mark (w : world) : world :=
  match mark_queue (session w) with
  | _ :: rest =>
      mk_world (set_mark_queue rest (session w)) (openai_ws w) (twilio_ws w)
        (yielded w) (log w)
  | [] => w
  end.

(** Checking a property of octets (or sextets) by running through all
    of them. *)
Definition all_below (n : nat) (P : N -> bool) : bool :=
  forallb P (map N.of_nat (seq 0 n)).

(** A sextet survives the trip through the alphabet, and its character
    is neither the pad nor outside ASCII. *)
Definition sextet_ok (n : N) : bool :=
  bool_decide (Base64.table_a2b_base64 (Base64.b2a n) = Some n) &&
  negb (Ascii.eqb (Base64.b2a n) Base64.BASE64_PAD) &&
  (N_of_ascii (Base64.b2a n) <? 128)%N.
(** A log entry as the media-stream endpoint appends it. *)
Definition hello_entry : json :=
  JDict [("timestamp", JStr "t0"); ("speaker", JStr "assistant");
         ("text", JStr "Hello")]%string.

(** A server with one registered call, whose log holds one entry, bridged
    to an OpenAI realtime session. *)
Definition one_call_server : Main.server :=
  Main.mk_server
    {[ "CA01"%string :=
         Main.mk_call "CA01" "CA01" (Some "user-1"%string) true 100 None
           "in_progress" (Some (Main.OpenAISession started_world))
           [Main.EntryDict hello_entry] ]}
    ∅ ∅ [] [] [].

(** The same server, with the log entry held as a [ConversationEntry]
    object, as the field is declared. *)
Definition typed_log_server : Main.server :=
  Main.mk_server
    {[ "CA01"%string :=
         Main.mk_call "CA01" "CA01" (Some "user-1"%string) true 100 None
           "in_progress" (Some (Main.OpenAISession started_world))
           [Main.EntryObject (Main.mk_entry "t0" "assistant" "Hello")] ]}
    ∅ ∅ [] [] [].

(** The payload a well-formed telephony media frame carries. *)
Definition media_payload (m : text_frame) : option json :=
  match m with
  | Text data =>
      match getitem data "event", getitem data "media" with
      | inr event, inr media =>
          if eq_str event "media" then
            match getitem media "timestamp", getitem media "payload" with
            | inr timestamp, inr payload =>
                match py_int timestamp with
                | inr _ => Some payload
                | inl _ => None
                end
            | _, _ => None
            end
          else None
      | _, _ => None
      end
  | Malformed _ => None
  end.

(** [base64.b64decode(response['delta'])], the first thing
    [_handle_audio_delta] evaluates. *)
Definition decoded_delta (response : json) : exn + Base64.bytes :=
  match getitem response "delta" with
  | inr delta => py_b64decode delta
  | inl e => inl e
  end.

(** The state with one more record in the log. *)
Definition logged (r : log_record) (w : world) : world :=
  mk_world (session w) (openai_ws w) (twilio_ws w) (yielded w) (log w ++ [r]).

(** The state a successful interruption leaves behind: the truncate
    instruction (if an item was being played) and the clear instruction
    written, the playback fields reset. *)
Definition after_interruption (start : Z) (lg' : list log_record) (w : world) : world :=
  let sd := session w in
  mk_world
    (mk_session (session_id sd) (is_active sd) (stream_sid sd)
       (latest_media_timestamp sd) JNull [] None)
    (if truthy (last_assistant_item sd)
     then write (Wire.truncate (last_assistant_item sd)
                   (latest_media_timestamp sd - start)) (openai_ws w)
     else openai_ws w)
    (write (Wire.clear (get_stream_sid sd)) (twilio_ws w))
    (yielded w) lg'.

(** [response['type']] of a model message, as the head of the loop body
    of [handle_openai_to_twilio] reads it. *)
Definition event_type (m : text_frame) : exn + json :=
  match json_loads m with
  | inr response => getitem response "type"
  | inl e => inl e
  end.

(** An action keeps a relation when every run of it, raising or not,
    relates the state it starts from to the state it leaves. *)
Definition keeps (R : world -> world -> Prop) {A} (m : M A) : Prop :=
  forall w, R w (m w).1.

(** Every token in the mark queue is the one [_send_mark] appends. *)
Definition tokens_are_marks (w : world) : Prop :=
  Forall (eq "responsePart"%string) (mark_queue (session w)).

Definition keeps_tokens (w w' : world) : Prop :=
  tokens_are_marks w -> tokens_are_marks w'.

(** [w'] has everything [w] had: what was written, yielded and logged is
    still there, in the same order, and the connection states and the
    identity of the session are the same. *)
Definition extends (w w' : world) : Prop :=
  sent (openai_ws w) `prefix_of` sent (openai_ws w') /\
  sent (twilio_ws w) `prefix_of` sent (twilio_ws w') /\
  yielded w `prefix_of` yielded w' /\
  log w `prefix_of` log w' /\
  is_open (openai_ws w') = is_open (openai_ws w) /\
  is_open (twilio_ws w') = is_open (twilio_ws w) /\
  session_id (session w') = session_id (session w) /\
  is_active (session w') = is_active (session w).

(** The telephony clock and the stream id are the same. *)
Definition same_clock (w w' : world) : Prop :=
  latest_media_timestamp (session w') = latest_media_timestamp (session w) /\
  stream_sid (session w') = stream_sid (session w).

(** Nothing new on the telephony side or for the consumer. *)
Definition same_telephony (w w' : world) : Prop :=
  twilio_ws w' = twilio_ws w /\ yielded w' = yielded w.

(** All that was added to the model connection satisfies [P]. *)
Definition writes_to_model (P : json -> Prop) (w w' : world) : Prop :=
  exists msgs,
    sent (openai_ws w') = sent (openai_ws w) ++ msgs /\ Forall P msgs.

Definition is_truncate (msg : json) : Prop :=
  exists item audio_end_ms, msg = Wire.truncate item audio_end_ms.

Definition is_audio_append (msg : json) : Prop :=
  exists audio, msg = Wire.audio_append audio.

(** The row teardown hands to [save_call_metrics] for a call session
    torn down at [now] whose log serialises to [transcript]. *)
Definition metrics_row (now : Z) (cs : Main.CallSession)
    (transcript : list json) : Main.CallMetrics :=
  Main.mk_metrics (Main.user_id cs) (Main.call_sid cs)
    (now - Main.start_time cs) (JList transcript)
    (match Main.conversation_log cs with
     | [] => "No conversation recorded"%string
     | _ :: _ => "Summary generation failed"%string
     end)
    (Main.start_time cs) now.

(** A session in the middle of playing a response whose model connection
    has gone away. *)
Definition model_gone_world : world :=
  mk_world (session (playing_world 1000 1450 "item_7"))
    (mk_transport false []) (mk_transport true []) [] [].

(** A started session whose telephony connection has gone away. *)
Definition telephony_gone_world : world :=
  mk_world (session started_world) (mk_transport true [])
    (mk_transport false []) [] [].

(** The call registered in [one_call_server]. *)
Definition sample_call : Main.CallSession :=
  Main.mk_call "CA01" "CA01" (Some "user-1"%string) true 100 None
    "in_progress" (Some (Main.OpenAISession started_world))
    [Main.EntryDict hello_entry].

(** The call registered in [typed_log_server]. *)
Definition typed_call : Main.CallSession :=
  Main.mk_call "CA01" "CA01" (Some "user-1"%string) true 100 None
    "in_progress" (Some (Main.OpenAISession started_world))
    [Main.EntryObject (Main.mk_entry "t0" "assistant" "Hello")].

(** A connected legacy voice session, and a server with one call bridged
    to it. *)
Definition legacy_voice : Main.AzureVoiceSession :=
  Main.mk_azure "AZ01" true (Some true).

Definition legacy_call : Main.CallSession :=
  Main.mk_call "CA01" "CA01" (Some "user-1"%string) true 100 None
    "in_progress" (Some (Main.LegacySession legacy_voice)) [].

Definition legacy_server : Main.server :=
  Main.mk_server {[ "CA01"%string := legacy_call ]} ∅
    {[ "AZ01"%string := legacy_voice ]} [] [] [].

(** A mixed run of both pumps: the stream starts, a delta is played, an
    undecodable telephony frame arrives, the caller interrupts. *)
Definition sample_run : list relay_event :=
  [FromTwilio (Text (Wire.start_in "MZ02"));
   FromOpenAI (Text (Wire.audio_delta "item_1" "TWFu"));
   FromTwilio (Malformed "{");
   FromOpenAI
     (Text (JDict [("type", JStr "input_audio_buffer.speech_started")]%string))].

(** ** Proof tools *)

Ltac open_world w :=
  destruct w as [[sid act ssid lmt lai mq rst] [oo os] [to ts] ys lg];
  cbn [session openai_ws twilio_ws yielded log session_id is_active stream_sid
       latest_media_timestamp last_assistant_item mark_queue
       response_start_timestamp is_open sent] in *.

(** Runs the monadic plumbing and the record projections, leaving the
    Python-level tests ([truthy], [getitem], ...) in place. *)
Ltac run_relay :=
  cbv beta iota zeta delta
    [mbind M_bind mret M_ret ret raise lift get_session update_session logger
     when openai_send twilio_send_json openai_close yield_ try_except write
     session openai_ws twilio_ws yielded log session_id is_active stream_sid
     latest_media_timestamp last_assistant_item mark_queue
     response_start_timestamp is_open sent get_stream_sid
     set_stream_sid set_latest_media_timestamp set_last_assistant_item
     set_mark_queue set_response_start_timestamp show_timing_math fst snd].

Lemma bind_ok {A B} (m : M A) (k : A -> M B) (w w1 : world) (a : A) :
  m w = (w1, inr a) -> (m ≫= k) w = k a w1.
Proof. intros H. unfold mbind, M_bind. rewrite H. reflexivity. Qed.

Lemma lift_ok {A} (r : exn + A) (a : A) (w : world) :
  r = inr a -> lift r w = (w, inr a).
Proof. intros ->. reflexivity. Qed.

(** Steps over the next bound action once its outcome is known. *)
Ltac step_with H := erewrite bind_ok by exact H; cbv beta.
Ltac step_lift H := erewrite bind_ok by exact (lift_ok _ _ _ H); cbv beta.
Ltac step := erewrite bind_ok by reflexivity; cbv beta.

(** Evaluates comparisons of a known event type with a literal. *)
Ltac eval_eq_str :=
  repeat match goal with
         | |- context [eq_str (JStr ?a) ?b] =>
             let v := eval vm_compute in (eq_str (JStr a) b) in
             change (eq_str (JStr a) b) with v
         end.

(** ** [int()] on the timestamps telephony sends *)

Example py_int_decimal_string : py_int (JStr "1450") = inr 1450.
Proof. reflexivity. Qed.

Example py_int_padded_signed : py_int (JStr " -1_000 ") = inr (-1000).
Proof. reflexivity. Qed.

Example py_int_rejects_trailing_text : py_int (JStr "12ms") = inl ValueError.
Proof. reflexivity. Qed.

Example py_int_rejects_double_underscore : py_int (JStr "1__0") = inl ValueError.
Proof. reflexivity. Qed.

Example py_int_rejects_null : py_int JNull = inl TypeError.
Proof. reflexivity. Qed.

(** U+001C is whitespace for [str.strip], not for [int]; U+00A0 is
    whitespace for both. *)
Example py_int_rejects_separator :
  py_int (JStr (String "028" "5")) = inl ValueError.
Proof. reflexivity. Qed.

Example py_int_skips_no_break_space :
  py_int (JStr (String "160" "5")) = inr 5.
Proof. reflexivity. Qed.

(** [int(1450.9) = 1450] and [int(-0.5) = 0]: the binary64 values are
    [3190562841480397 * 2^-41] and [-(1 * 2^-1)]. *)
Example py_int_truncates_float :
  py_int (JFloat (S754_finite false 3190562841480397 (-41))) = inr 1450 /\
  py_int (JFloat (S754_finite true 1 (-1))) = inr 0.
Proof. split; reflexivity. Qed.

Example py_int_rejects_nan_and_infinity :
  py_int (JFloat S754_nan) = inl ValueError /\
  py_int (JFloat (S754_infinity false)) = inl OverflowError.
Proof. split; reflexivity. Qed.

(** ** The speech-interruption handler *)
Section Interruption.
Variable debug : bool.

(** C1.  With [response_start_timestamp = 1000],
    [latest_media_timestamp = 1450], [last_assistant_item = "item_7"] and
    a non-empty [mark_queue], the interruption handler writes exactly one
    truncate instruction (item_7, content index 0, audio end 450 ms) to
    the model connection and exactly one clear instruction to the
    telephony connection, and leaves [mark_queue] empty and
    [last_assistant_item], [response_start_timestamp] unset. *)
Theorem interruption_item_7 (w : world) :
  response_start_timestamp (session w) = Some 1000 ->
  latest_media_timestamp (session w) = 1450 ->
  last_assistant_item (session w) = JStr "item_7" ->
  mark_queue (session w) <> [] ->
  is_open (openai_ws w) = true ->
  is_open (twilio_ws w) = true ->
  let r := _handle_speech_interruption debug w in
  r.2 = inr tt /\
  sent (openai_ws r.1) =
    sent (openai_ws w) ++ [Wire.truncate (JStr "item_7") 450] /\
  sent (twilio_ws r.1) =
    sent (twilio_ws w) ++ [Wire.clear (get_stream_sid (session w))] /\
  mark_queue (session r.1) = [] /\
  last_assistant_item (session r.1) = JNull /\
  response_start_timestamp (session r.1) = None.
Proof.
  open_world w. intros -> -> -> Hq -> ->.
  destruct mq as [|tok mq]; [congruence|].
  destruct debug; lazy -[app Z.sub]; repeat split; reflexivity.
Qed.

(** C5.  When [mark_queue] is empty or [response_start_timestamp] is
    unset the interruption handler does nothing: nothing is written to
    either connection and the session (indeed the whole state, log
    included) is as before. *)
Theorem interruption_noop (w : world) :
  mark_queue (session w) = [] \/ response_start_timestamp (session w) = None ->
  _handle_speech_interruption debug w = (w, inr tt).
Proof.
  open_world w. intros [-> | ->].
  - reflexivity.
  - destruct mq; reflexivity.
Qed.

(** C3, as the code has it.  With a non-empty [mark_queue], a start
    timestamp and a (truthy) last assistant item, and with
    [latest_media_timestamp] below [response_start_timestamp], the
    truncate instruction carries
    [audio_end_ms = latest_media_timestamp - response_start_timestamp],
    the plain difference, which is negative: no clamp is applied. *)
Theorem interruption_offset_is_difference (w : world) (start : Z) :
  mark_queue (session w) <> [] ->
  response_start_timestamp (session w) = Some start ->
  truthy (last_assistant_item (session w)) = true ->
  latest_media_timestamp (session w) < start ->
  is_open (openai_ws w) = true ->
  is_open (twilio_ws w) = true ->
  let r := _handle_speech_interruption debug w in
  let audio_end_ms := latest_media_timestamp (session w) - start in
  sent (openai_ws r.1) =
    sent (openai_ws w) ++
      [Wire.truncate (last_assistant_item (session w)) audio_end_ms] /\
  audio_end_ms < 0.
Proof.
  open_world w. intros Hq -> Hlai Hlt -> ->.
  destruct mq as [|tok mq]; [congruence|].
  split; [|lia].
  unfold _handle_speech_interruption.
  destruct debug; run_relay; rewrite Hlai; reflexivity.
Qed.
End Interruption.

Lemma interruption_item_7_witness :
  let r := _handle_speech_interruption false (playing_world 1000 1450 "item_7") in
  sent (openai_ws r.1) = [Wire.truncate (JStr "item_7") 450] /\
  sent (twilio_ws r.1) = [Wire.clear (JStr "MZ01")] /\
  mark_queue (session r.1) = [].
Proof.
  pose proof (interruption_item_7 false (playing_world 1000 1450 "item_7")
                eq_refl eq_refl eq_refl ltac:(discriminate) eq_refl eq_refl)
    as (_ & Ho & Ht & Hq & _).
  exact (conj Ho (conj Ht Hq)).
Defined.

Lemma interruption_noop_witness :
  _handle_speech_interruption true (fresh_world "CA01") =
  (fresh_world "CA01", inr tt).
Proof.
  apply (interruption_noop true (fresh_world "CA01")). left. reflexivity.
Defined.

Lemma interruption_offset_is_difference_witness :
  let r := _handle_speech_interruption false (playing_world 2000 1800 "item_7") in
  sent (openai_ws r.1) = [Wire.truncate (JStr "item_7") (1800 - 2000)].
Proof.
  exact (proj1 (interruption_offset_is_difference false
                  (playing_world 2000 1800 "item_7") 2000
                  ltac:(discriminate) eq_refl eq_refl ltac:(cbn; lia)
                  eq_refl eq_refl)).
Defined.

(** C3 as stated fails: with [response_start_timestamp = 2000] and
    [latest_media_timestamp = 1800] the instruction sent carries
    [audio_end_ms = -200], not [0]. *)
Lemma interruption_offset_not_clamped :
  let w := playing_world 2000 1800 "item_7" in
  let r := _handle_speech_interruption false w in
  mark_queue (session w) <> [] /\
  response_start_timestamp (session w) = Some 2000 /\
  last_assistant_item (session w) = JStr "item_7" /\
  latest_media_timestamp (session w) = 1800 /\
  sent (openai_ws r.1) = [Wire.truncate (JStr "item_7") (-200)] /\
  sent (openai_ws r.1) <> [Wire.truncate (JStr "item_7") 0].
Proof.
  cbv zeta. repeat split; try reflexivity; discriminate.
Qed.

(** ** The telephony-to-model pump *)

Lemma default_last_cons (d t : Z) (ts : list Z) :
  default d (last (t :: ts)) = default t (last ts).
Proof. rewrite last_cons. destruct (last ts); reflexivity. Qed.

Section TwilioPump.
Variable on_session_start : option (M unit).

Lemma twilio_message_media (m : text_frame) (t : Z) (w : world) :
  media_timestamp m = Some t ->
  is_open (openai_ws w) = true ->
  exists payload,
    twilio_message on_session_start m w =
    (mk_world (set_latest_media_timestamp t (session w))
       (write (Wire.audio_append payload) (openai_ws w))
       (twilio_ws w) (yielded w) (log w), inr tt).
Proof.
  intros Hm Ho. open_world w. subst oo.
  destruct m as [raw|data]; [discriminate|].
  cbn in Hm.
  destruct (getitem data "event") as [|event] eqn:Hev; [discriminate|].
  destruct (getitem data "media") as [|media] eqn:Hmedia; [discriminate|].
  destruct (eq_str event "media") eqn:Heq; [|discriminate].
  destruct (getitem media "timestamp") as [|timestamp] eqn:Hts; [discriminate|].
  destruct (getitem media "payload") as [|payload] eqn:Hp; [discriminate|].
  destruct (py_int timestamp) as [|t'] eqn:Hint; [discriminate|].
  injection Hm as ->. exists payload.
  unfold twilio_message, json_loads. run_relay.
  rewrite Hev, Heq, Hmedia, Hts, Hint, Hp. reflexivity.
Qed.

Lemma for_each_media (frames : list text_frame) (ts : list Z) (w : world) :
  map media_timestamp frames = map Some ts ->
  is_open (openai_ws w) = true ->
  let r := for_each (twilio_message on_session_start) frames w in
  r.2 = inr tt /\
  is_open (openai_ws r.1) = true /\
  latest_media_timestamp (session r.1) =
    default (latest_media_timestamp (session w)) (last ts).
Proof.
  revert ts w. induction frames as [|m frames IH]; intros [|t ts] w Hts Ho;
    try discriminate.
  - cbn. auto.
  - cbn in Hts. injection Hts as Hm Hts.
    destruct (twilio_message_media m t w Hm Ho) as [payload Hstep].
    cbn [for_each]. unfold mbind, M_bind. rewrite Hstep.
    match goal with |- context [for_each _ frames ?w1] =>
      specialize (IH ts w1 Hts Ho) end.
    cbv zeta in IH. destruct IH as (Hr & Hopen & Hlast).
    cbv zeta. repeat split; [exact Hr | exact Hopen |].
    rewrite Hlast, default_last_cons. reflexivity.
Qed.

Lemma sorted_last_is_max (ts : list Z) (t : Z) :
  StronglySorted Z.le (t :: ts) ->
  default t (last (t :: ts)) = foldl Z.max t ts.
Proof.
  revert t. induction ts as [|u ts IH]; intros t Hs; [reflexivity|].
  apply StronglySorted_inv in Hs as [Hs Hle].
  cbn [foldl]. rewrite default_last_cons.
  assert (Z.max t u = u) as -> by (inversion Hle; subst; lia).
  rewrite <- (IH u Hs), !default_last_cons. reflexivity.
Qed.

Lemma sorted_prefix_last_le (ts : list Z) (d : Z) (n m : nat) :
  StronglySorted Z.le (d :: ts) -> (n <= m)%nat ->
  default d (last (take n ts)) <= default d (last (take m ts)).
Proof.
  revert d n m. induction ts as [|t ts IH]; intros d n m Hs Hnm.
  - rewrite !take_nil. cbn. lia.
  - apply StronglySorted_inv in Hs as [Hs Hle].
    assert (Hdt : d <= t) by (inversion Hle; assumption).
    destruct n as [|n], m as [|m]; try lia.
    + change (take 0 (t :: ts)) with (@nil Z).
      change (take (S m) (t :: ts)) with (t :: take m ts).
      rewrite default_last_cons.
      pose proof (IH t 0%nat m Hs ltac:(lia)) as H0.
      change (take 0 ts) with (@nil Z) in H0.
      change (default t (last [])) with t in H0.
      change (default d (last [])) with d. lia.
    + change (take (S n) (t :: ts)) with (t :: take n ts).
      change (take (S m) (t :: ts)) with (t :: take m ts).
      rewrite !default_last_cons. apply IH; [exact Hs | lia].
Qed.

Lemma pump_clock (frames : list text_frame) (ts : list Z) (w : world) :
  map media_timestamp frames = map Some ts ->
  is_open (openai_ws w) = true ->
  let r := handle_twilio_to_openai on_session_start frames w in
  r.2 = inr tt /\
  latest_media_timestamp (session r.1) =
    default (latest_media_timestamp (session w)) (last ts).
Proof.
  intros Hts Ho.
  destruct (for_each_media frames ts w Hts Ho) as (Hr & _ & Hlast).
  unfold handle_twilio_to_openai, try_except. cbv zeta in *.
  destruct (for_each _ frames w) as [w' [e|[]]]; cbn [fst snd] in *;
    [discriminate|].
  split; [reflexivity | exact Hlast].
Qed.

(** C2, as the code has it.  After the pump has processed a sequence of
    well-formed media frames, [latest_media_timestamp] is the timestamp
    of the last frame processed.  When the frames arrive with
    non-decreasing timestamps it is the maximum seen so far; when in
    addition the first of them is not below the value stored at the
    start, the stored value never decreases along the run. *)
Theorem latest_media_timestamp_is_last (frames : list text_frame)
    (ts : list Z) (w : world) :
  map media_timestamp frames = map Some ts ->
  is_open (openai_ws w) = true ->
  let clock_after := fun n =>
    latest_media_timestamp
      (session (handle_twilio_to_openai on_session_start (take n frames) w).1) in
  let r := handle_twilio_to_openai on_session_start frames w in
  r.2 = inr tt /\
  latest_media_timestamp (session r.1) =
    default (latest_media_timestamp (session w)) (last ts) /\
  (StronglySorted Z.le ts -> ts <> [] ->
   Some (latest_media_timestamp (session r.1)) = max_timestamp ts) /\
  (StronglySorted Z.le (latest_media_timestamp (session w) :: ts) ->
   forall n m : nat, (n <= m)%nat -> clock_after n <= clock_after m).
Proof.
  intros Hts Ho. cbv zeta.
  destruct (pump_clock frames ts w Hts Ho) as [Hr Hlast].
  cbv zeta in Hr, Hlast.
  split; [exact Hr|]. split; [exact Hlast|]. split.
  - intros Hs Hne. rewrite Hlast.
    destruct ts as [|t ts]; [congruence|].
    cbn [max_timestamp]. rewrite <- (sorted_last_is_max ts t Hs).
    rewrite !default_last_cons. reflexivity.
  - intros Hs n m Hnm.
    assert (Hclock : forall k,
      latest_media_timestamp
        (session (handle_twilio_to_openai on_session_start (take k frames) w).1) =
      default (latest_media_timestamp (session w)) (last (take k ts))).
    { intros k. apply (pump_clock (take k frames) (take k ts) w); [|exact Ho].
      rewrite <- !firstn_map, Hts. reflexivity. }
    rewrite !Hclock. apply sorted_prefix_last_le; assumption.
Qed.

(** C4, as the code has it.  A message that [json.loads] rejects ends
    the pump: the messages before it are processed, the error is logged
    once and raised again, and no message after it is looked at. *)
Theorem malformed_message_ends_pump (before after : list text_frame)
    (raw : string) (w w1 : world) :
  for_each (twilio_message on_session_start) before w = (w1, inr tt) ->
  handle_twilio_to_openai on_session_start
    (before ++ Malformed raw :: after) w =
  (mk_world (session w1) (openai_ws w1) (twilio_ws w1) (yielded w1)
     (log w1 ++ [Error "Error in Twilio to OpenAI handler" JSONDecodeError]),
   inl JSONDecodeError).
Proof.
  revert w. induction before as [|m before IH]; intros w Hpre.
  - cbn in Hpre. injection Hpre as ->. reflexivity.
  - cbn [for_each] in Hpre. unfold mbind, M_bind in Hpre.
    specialize (IH (twilio_message on_session_start m w).1).
    unfold handle_twilio_to_openai, try_except in *.
    cbn [app for_each]. unfold mbind at 1, M_bind at 1.
    destruct (twilio_message on_session_start m w) as [w' [e|[]]];
      [discriminate|].
    cbn [fst] in IH. exact (IH Hpre).
Qed.
End TwilioPump.

Lemma latest_media_timestamp_is_last_witness :
  let frames := [Text (Wire.media_in (JStr "100") (JStr "AAAA"));
                 Text (Wire.media_in (JStr "250") (JStr "AAAA"))] in
  let r1 := handle_twilio_to_openai None (take 1 frames) (fresh_world "CA01") in
  let r := handle_twilio_to_openai None frames (fresh_world "CA01") in
  latest_media_timestamp (session r.1) = 250 /\
  Some (latest_media_timestamp (session r.1)) = max_timestamp [100; 250] /\
  latest_media_timestamp (session r1.1) <= latest_media_timestamp (session r.1).
Proof.
  pose proof (latest_media_timestamp_is_last None
                [Text (Wire.media_in (JStr "100") (JStr "AAAA"));
                 Text (Wire.media_in (JStr "250") (JStr "AAAA"))]
                [100; 250] (fresh_world "CA01") eq_refl eq_refl)
    as (_ & Hlast & Hmax & Hmono).
  split; [exact Hlast|]. split.
  - apply Hmax; [|discriminate]. repeat constructor; lia.
  - apply (Hmono ltac:(repeat constructor; cbn; lia) 1%nat 2%nat). lia.
Defined.

(** C2 as stated fails: a second frame stamped 50 after a frame stamped
    100 leaves [latest_media_timestamp = 50], below the maximum seen. *)
Lemma later_frame_rolls_clock_back :
  let frames := [Text (Wire.media_in (JStr "100") (JStr "AAAA"));
                 Text (Wire.media_in (JStr "50") (JStr "AAAA"))] in
  let r1 := handle_twilio_to_openai None (take 1 frames) (fresh_world "CA01") in
  let r2 := handle_twilio_to_openai None frames (fresh_world "CA01") in
  map media_timestamp frames = [Some 100; Some 50] /\
  r2.2 = inr tt /\
  latest_media_timestamp (session r1.1) = 100 /\
  latest_media_timestamp (session r2.1) = 50 /\
  Some (latest_media_timestamp (session r2.1)) <> max_timestamp [100; 50] /\
  latest_media_timestamp (session r2.1) < latest_media_timestamp (session r1.1).
Proof.
  cbv zeta. repeat split; try reflexivity.
  vm_compute. discriminate.
Qed.

Lemma malformed_message_ends_pump_witness :
  let r := handle_twilio_to_openai None
             ([Text (Wire.media_in (JStr "20") (JStr "AAAA"))] ++
              Malformed "{" ::
              [Text (Wire.media_in (JStr "40") (JStr "AAAA"))])
             (fresh_world "CA01") in
  r.2 = inl JSONDecodeError /\ latest_media_timestamp (session r.1) = 20.
Proof.
  cbv zeta.
  rewrite (malformed_message_ends_pump None
             [Text (Wire.media_in (JStr "20") (JStr "AAAA"))]
             [Text (Wire.media_in (JStr "40") (JStr "AAAA"))] "{"
             (fresh_world "CA01") _ eq_refl).
  split; reflexivity.
Defined.

(** C4 as stated fails: after an undecodable message the pump returns
    with [JSONDecodeError] and the media frame behind it is never
    forwarded, although the same frame alone is. *)
Lemma malformed_message_stops_forwarding :
  let frame := Text (Wire.media_in (JStr "20") (JStr "AAAA")) in
  let r := handle_twilio_to_openai None [Malformed "{"; frame] (fresh_world "CA01") in
  let r' := handle_twilio_to_openai None [frame] (fresh_world "CA01") in
  r.2 = inl JSONDecodeError /\
  r.2 <> inr tt /\
  sent (openai_ws r.1) = [] /\
  latest_media_timestamp (session r.1) = 0 /\
  log r.1 = [Error "Error in Twilio to OpenAI handler" JSONDecodeError] /\
  r'.2 = inr tt /\
  sent (openai_ws r'.1) = [Wire.audio_append (JStr "AAAA")] /\
  latest_media_timestamp (session r'.1) = 20.
Proof. cbv zeta. repeat split; try reflexivity. discriminate. Qed.

(** ** Base64: decoding undoes encoding *)
Section Base64Facts.
Import Base64.
Local Open Scope N_scope.

Lemma all_below_spec (n : nat) (P : N -> bool) :
  all_below n P = true -> forall x, x < N.of_nat n -> P x = true.
Proof.
  unfold all_below. rewrite forallb_forall. intros H x Hx.
  apply H, in_map_iff. exists (N.to_nat x). split; [lia|].
  apply in_seq. lia.
Qed.

Lemma all_octets (P : N -> bool) :
  all_below 256 P = true -> forall a : ascii, P (N_of_ascii a) = true.
Proof.
  intros H a. apply (all_below_spec 256 P H).
  pose proof (N_ascii_bounded a). lia.
Qed.

Lemma all_octet_pairs (P : N -> N -> bool) :
  all_below 256 (fun x => all_below 256 (P x)) = true ->
  forall a b : ascii, P (N_of_ascii a) (N_of_ascii b) = true.
Proof.
  intros H a b.
  apply (all_octets (P (N_of_ascii a))).
  exact (all_octets (fun x => all_below 256 (P x)) H a).
Qed.

Lemma sextet_ok_below_64 (n : N) : n < 64 -> sextet_ok n = true.
Proof. apply (all_below_spec 64 sextet_ok). vm_compute. reflexivity. Qed.

Lemma a2b_base64_sextet (n : N) (rest : string) (quad_pos leftchar pads : N)
    (bin_data : bytes) :
  sextet_ok n = true ->
  a2b_base64 (String (b2a n) rest) quad_pos leftchar pads bin_data =
  if quad_pos =? 0 then a2b_base64 rest 1 n 0 bin_data
  else if quad_pos =? 1 then
    a2b_base64 rest 2 (N.land n 15) 0
      (bin_data ++ [ascii_of_N (N.lor (N.shiftl leftchar 2) (N.shiftr n 4))])
  else if quad_pos =? 2 then
    a2b_base64 rest 3 (N.land n 3) 0
      (bin_data ++ [ascii_of_N (N.lor (N.shiftl leftchar 4) (N.shiftr n 2))])
  else
    a2b_base64 rest 0 0 0
      (bin_data ++ [ascii_of_N (N.lor (N.shiftl leftchar 6) n)]).
Proof.
  unfold sextet_ok. rewrite !andb_true_iff, bool_decide_eq_true, negb_true_iff.
  intros [[Htab Hpad] _]. cbn [a2b_base64]. rewrite Hpad, Htab. reflexivity.
Qed.

(** The four sextets of a group, as [b64encode] cuts them. *)
Local Abbreviation s0 x := (N.shiftr x 2).
Local Abbreviation s1 x y := (N.lor (N.shiftl (N.land x 3) 4) (N.shiftr y 4)).
Local Abbreviation s2 y z := (N.lor (N.shiftl (N.land y 15) 2) (N.shiftr z 6)).
Local Abbreviation s3 z := (N.land z 63).

Lemma s0_ok (a : ascii) : sextet_ok (s0 (N_of_ascii a)) = true.
Proof.
  apply (all_octets (fun x => sextet_ok (s0 x))). vm_compute. reflexivity.
Qed.

Lemma s1_ok (a b : ascii) : sextet_ok (s1 (N_of_ascii a) (N_of_ascii b)) = true.
Proof.
  apply sextet_ok_below_64.
  apply N.ltb_lt.
  apply (all_octet_pairs (fun x y => s1 x y <? 64)). vm_compute. reflexivity.
Qed.

Lemma s2_ok (a b : ascii) : sextet_ok (s2 (N_of_ascii a) (N_of_ascii b)) = true.
Proof.
  apply sextet_ok_below_64.
  apply N.ltb_lt.
  apply (all_octet_pairs (fun x y => s2 x y <? 64)). vm_compute. reflexivity.
Qed.

Lemma s3_ok (a : ascii) : sextet_ok (s3 (N_of_ascii a)) = true.
Proof.
  apply (all_octets (fun x => sextet_ok (s3 x))). vm_compute. reflexivity.
Qed.

(** The octets [a2b_base64] reassembles from those sextets. *)
Lemma first_octet (a b : ascii) :
  N.lor (N.shiftl (s0 (N_of_ascii a)) 2)
        (N.shiftr (s1 (N_of_ascii a) (N_of_ascii b)) 4) = N_of_ascii a.
Proof.
  apply N.eqb_eq.
  apply (all_octet_pairs
           (fun x y => N.lor (N.shiftl (s0 x) 2) (N.shiftr (s1 x y) 4) =? x)).
  vm_compute. reflexivity.
Qed.

Lemma s1_low_bits (a b : ascii) :
  N.land (s1 (N_of_ascii a) (N_of_ascii b)) 15 = N.shiftr (N_of_ascii b) 4.
Proof.
  apply N.eqb_eq.
  apply (all_octet_pairs (fun x y => N.land (s1 x y) 15 =? N.shiftr y 4)).
  vm_compute. reflexivity.
Qed.

Lemma second_octet (b c : ascii) :
  N.lor (N.shiftl (N.shiftr (N_of_ascii b) 4) 4)
        (N.shiftr (s2 (N_of_ascii b) (N_of_ascii c)) 2) = N_of_ascii b.
Proof.
  apply N.eqb_eq.
  apply (all_octet_pairs
           (fun y z => N.lor (N.shiftl (N.shiftr y 4) 4) (N.shiftr (s2 y z) 2) =? y)).
  vm_compute. reflexivity.
Qed.

Lemma s2_low_bits (b c : ascii) :
  N.land (s2 (N_of_ascii b) (N_of_ascii c)) 3 = N.shiftr (N_of_ascii c) 6.
Proof.
  apply N.eqb_eq.
  apply (all_octet_pairs (fun y z => N.land (s2 y z) 3 =? N.shiftr z 6)).
  vm_compute. reflexivity.
Qed.

Lemma third_octet (c : ascii) :
  N.lor (N.shiftl (N.shiftr (N_of_ascii c) 6) 6) (s3 (N_of_ascii c)) =
  N_of_ascii c.
Proof.
  apply N.eqb_eq.
  apply (all_octets
           (fun z => N.lor (N.shiftl (N.shiftr z 6) 6) (s3 z) =? z)).
  vm_compute. reflexivity.
Qed.

Lemma last_sextet_of_one_ok (a : ascii) :
  sextet_ok (N.shiftl (N.land (N_of_ascii a) 3) 4) = true.
Proof.
  apply (all_octets (fun x => sextet_ok (N.shiftl (N.land x 3) 4))).
  vm_compute. reflexivity.
Qed.

Lemma only_octet (a : ascii) :
  N.lor (N.shiftl (s0 (N_of_ascii a)) 2)
        (N.shiftr (N.shiftl (N.land (N_of_ascii a) 3) 4) 4) = N_of_ascii a.
Proof.
  apply N.eqb_eq.
  apply (all_octets
           (fun x => N.lor (N.shiftl (s0 x) 2)
                       (N.shiftr (N.shiftl (N.land x 3) 4) 4) =? x)).
  vm_compute. reflexivity.
Qed.

Lemma last_sextet_of_two_ok (b : ascii) :
  sextet_ok (N.shiftl (N.land (N_of_ascii b) 15) 2) = true.
Proof.
  apply (all_octets (fun y => sextet_ok (N.shiftl (N.land y 15) 2))).
  vm_compute. reflexivity.
Qed.

Lemma second_of_two_octets (b : ascii) :
  N.lor (N.shiftl (N.shiftr (N_of_ascii b) 4) 4)
        (N.shiftr (N.shiftl (N.land (N_of_ascii b) 15) 2) 2) = N_of_ascii b.
Proof.
  apply N.eqb_eq.
  apply (all_octets
           (fun y => N.lor (N.shiftl (N.shiftr y 4) 4)
                       (N.shiftr (N.shiftl (N.land y 15) 2) 2) =? y)).
  vm_compute. reflexivity.
Qed.

Lemma bytes_ind3 (P : bytes -> Prop) :
  P [] ->
  (forall a, P [a]) ->
  (forall a b, P [a; b]) ->
  (forall a b c rest, P rest -> P (a :: b :: c :: rest)) ->
  forall raw, P raw.
Proof.
  intros H0 H1 H2 H3.
  fix go 1. intros [|a [|b [|c rest]]];
    [exact H0 | exact (H1 a) | exact (H2 a b) | exact (H3 a b c rest (go rest))].
Qed.

Ltac decode_sextet ok :=
  rewrite a2b_base64_sextet by exact ok; cbn [N.eqb Pos.eqb].

(** [a2b_base64], started at a quad boundary on the encoding of [raw],
    appends [raw] to what it has already produced. *)
Lemma a2b_base64_b64encode (raw : bytes) :
  forall (leftchar : N) (bin_data : bytes),
    a2b_base64 (b64encode raw) 0 leftchar 0 bin_data = inr (bin_data ++ raw).
Proof.
  induction raw as [|a|a b|a b c rest IH] using bytes_ind3;
    intros leftchar bin_data.
  - cbn. rewrite app_nil_r. reflexivity.
  - cbn [b64encode].
    decode_sextet (s0_ok a).
    decode_sextet (last_sextet_of_one_ok a).
    rewrite (only_octet a), ascii_N_embedding.
    reflexivity.
  - cbn [b64encode].
    decode_sextet (s0_ok a).
    decode_sextet (s1_ok a b).
    decode_sextet (last_sextet_of_two_ok b).
    rewrite (first_octet a b), (s1_low_bits a b), (second_of_two_octets b).
    rewrite !ascii_N_embedding, <- app_assoc. reflexivity.
  - cbn [b64encode]. cbv [encode_quad String.append].
    decode_sextet (s0_ok a).
    decode_sextet (s1_ok a b).
    decode_sextet (s2_ok b c).
    decode_sextet (s3_ok c).
    rewrite (first_octet a b), (s1_low_bits a b), (second_octet b c).
    rewrite (s2_low_bits b c), (third_octet c).
    rewrite !ascii_N_embedding, IH, <- !app_assoc. reflexivity.
Qed.

Lemma b64encode_is_ascii (raw : bytes) : is_ascii_str (b64encode raw) = true.
Proof.
  unfold is_ascii_str.
  assert (ok : forall n, sextet_ok n = true -> (N_of_ascii (b2a n) <? 128) = true).
  { intros n. unfold sextet_ok. rewrite !andb_true_iff. tauto. }
  induction raw as [|a|a b|a b c rest IH] using bytes_ind3.
  - reflexivity.
  - cbn [b64encode list_ascii_of_string forallb].
    rewrite (ok _ (s0_ok a)), (ok _ (last_sextet_of_one_ok a)). reflexivity.
  - cbn [b64encode list_ascii_of_string forallb].
    rewrite (ok _ (s0_ok a)), (ok _ (s1_ok a b)), (ok _ (last_sextet_of_two_ok b)).
    reflexivity.
  - cbn [b64encode]. cbv [encode_quad String.append].
    cbn [list_ascii_of_string forallb].
    rewrite (ok _ (s0_ok a)), (ok _ (s1_ok a b)), (ok _ (s2_ok b c)),
      (ok _ (s3_ok c)).
    exact IH.
Qed.

(** [b64decode(b64encode(raw)) == raw] *)
Lemma b64decode_b64encode (raw : bytes) : b64decode (b64encode raw) = inr raw.
Proof.
  unfold b64decode.
  rewrite b64encode_is_ascii. exact (a2b_base64_b64encode raw 0 []).
Qed.

(** *** Canonical strings are exactly the encodings *)

Lemma all_sextet_pairs (P : N -> N -> bool) :
  all_below 64 (fun x => all_below 64 (P x)) = true ->
  forall x y, x < 64 -> y < 64 -> P x y = true.
Proof.
  intros H x y Hx Hy.
  apply (all_below_spec 64 (P x)); [|exact Hy].
  exact (all_below_spec 64 (fun x => all_below 64 (P x)) H x Hx).
Qed.

Lemma all_sextet_triples (P : N -> N -> N -> bool) :
  all_below 64 (fun x => all_below 64 (fun y => all_below 64 (P x y))) = true ->
  forall x y z, x < 64 -> y < 64 -> z < 64 -> P x y z = true.
Proof.
  intros H x y z Hx Hy Hz.
  apply (all_sextet_pairs (P x)); [|exact Hy|exact Hz].
  exact (all_below_spec 64 _ H x Hx).
Qed.

(** The octets a group of sextets stands for, as [a2b_base64] builds
    them. *)
Local Abbreviation o0 n0 n1 := (N.lor (N.shiftl n0 2) (N.shiftr n1 4)).
Local Abbreviation o1 n1 n2 := (N.lor (N.shiftl (N.land n1 15) 4) (N.shiftr n2 2)).
Local Abbreviation o2 n2 n3 := (N.lor (N.shiftl (N.land n2 3) 6) n3).

Lemma table_a2b_base64_inv (c : ascii) (n : N) :
  table_a2b_base64 c = Some n -> n < 64 /\ b2a n = c.
Proof.
  pose (check := fun k =>
    match table_a2b_base64 (ascii_of_N k) with
    | Some m => (m <? 64) && Ascii.eqb (b2a m) (ascii_of_N k)
    | None => true
    end).
  assert (H : check (N_of_ascii c) = true).
  { apply (all_octets check). vm_compute. reflexivity. }
  unfold check in H. rewrite ascii_N_embedding in H.
  intros Hc. rewrite Hc in H.
  apply andb_true_iff in H as [Hlt Heq].
  split; [apply N.ltb_lt, Hlt | apply Ascii.eqb_eq, Heq].
Qed.

Lemma octet_of_sextets (n m : N) :
  n < 64 -> m < 64 ->
  (o0 n m <? 256) && (o1 n m <? 256) && (o2 n m <? 256) = true.
Proof.
  apply (all_sextet_pairs
           (fun n m => (o0 n m <? 256) && (o1 n m <? 256) && (o2 n m <? 256))).
  vm_compute. reflexivity.
Qed.

Lemma N_of_ascii_o0 (n0 n1 : N) :
  n0 < 64 -> n1 < 64 -> N_of_ascii (ascii_of_N (o0 n0 n1)) = o0 n0 n1.
Proof.
  intros H0 H1. apply N_ascii_embedding.
  pose proof (octet_of_sextets n0 n1 H0 H1) as H.
  rewrite !andb_true_iff, !N.ltb_lt in H. tauto.
Qed.

Lemma N_of_ascii_o1 (n1 n2 : N) :
  n1 < 64 -> n2 < 64 -> N_of_ascii (ascii_of_N (o1 n1 n2)) = o1 n1 n2.
Proof.
  intros H1 H2. apply N_ascii_embedding.
  pose proof (octet_of_sextets n1 n2 H1 H2) as H.
  rewrite !andb_true_iff, !N.ltb_lt in H. tauto.
Qed.

Lemma N_of_ascii_o2 (n2 n3 : N) :
  n2 < 64 -> n3 < 64 -> N_of_ascii (ascii_of_N (o2 n2 n3)) = o2 n2 n3.
Proof.
  intros H2 H3. apply N_ascii_embedding.
  pose proof (octet_of_sextets n2 n3 H2 H3) as H.
  rewrite !andb_true_iff, !N.ltb_lt in H. tauto.
Qed.

Lemma s0_of_octets (n0 n1 : N) : n0 < 64 -> n1 < 64 -> s0 (o0 n0 n1) = n0.
Proof.
  intros H0 H1. apply N.eqb_eq.
  apply (all_sextet_pairs (fun n0 n1 => s0 (o0 n0 n1) =? n0));
    [vm_compute; reflexivity | assumption..].
Qed.

Lemma s1_of_octets (n0 n1 n2 : N) :
  n0 < 64 -> n1 < 64 -> n2 < 64 -> s1 (o0 n0 n1) (o1 n1 n2) = n1.
Proof.
  intros H0 H1 H2. apply N.eqb_eq.
  apply (all_sextet_triples (fun n0 n1 n2 => s1 (o0 n0 n1) (o1 n1 n2) =? n1));
    [vm_compute; reflexivity | assumption..].
Qed.

Lemma s2_of_octets (n1 n2 n3 : N) :
  n1 < 64 -> n2 < 64 -> n3 < 64 -> s2 (o1 n1 n2) (o2 n2 n3) = n2.
Proof.
  intros H1 H2 H3. apply N.eqb_eq.
  apply (all_sextet_triples (fun n1 n2 n3 => s2 (o1 n1 n2) (o2 n2 n3) =? n2));
    [vm_compute; reflexivity | assumption..].
Qed.

Lemma s3_of_octets (n2 n3 : N) : n2 < 64 -> n3 < 64 -> s3 (o2 n2 n3) = n3.
Proof.
  intros H2 H3. apply N.eqb_eq.
  apply (all_sextet_pairs (fun n2 n3 => s3 (o2 n2 n3) =? n3));
    [vm_compute; reflexivity | assumption..].
Qed.

Lemma last_sextet_of_one (n0 n1 : N) :
  n0 < 64 -> n1 < 64 -> N.land n1 15 = 0 ->
  N.shiftl (N.land (o0 n0 n1) 3) 4 = n1.
Proof.
  intros H0 H1 Hpad. apply N.eqb_eq in Hpad.
  pose proof (all_sextet_pairs
                (fun n0 n1 => implb (N.land n1 15 =? 0)
                                (N.shiftl (N.land (o0 n0 n1) 3) 4 =? n1))
                ltac:(vm_compute; reflexivity) n0 n1 H0 H1) as H.
  cbv beta in H. rewrite Hpad in H. apply N.eqb_eq, H.
Qed.

Lemma last_sextet_of_two (n1 n2 : N) :
  n1 < 64 -> n2 < 64 -> N.land n2 3 = 0 ->
  N.shiftl (N.land (o1 n1 n2) 15) 2 = n2.
Proof.
  intros H1 H2 Hpad. apply N.eqb_eq in Hpad.
  pose proof (all_sextet_pairs
                (fun n1 n2 => implb (N.land n2 3 =? 0)
                                (N.shiftl (N.land (o1 n1 n2) 15) 2 =? n2))
                ltac:(vm_compute; reflexivity) n1 n2 H1 H2) as H.
  cbv beta in H. rewrite Hpad in H. apply N.eqb_eq, H.
Qed.

Lemma string_ind4 (P : string -> Prop) :
  P EmptyString ->
  (forall c0, P (String c0 EmptyString)) ->
  (forall c0 c1, P (String c0 (String c1 EmptyString))) ->
  (forall c0 c1 c2, P (String c0 (String c1 (String c2 EmptyString)))) ->
  (forall c0 c1 c2 c3 rest,
      P rest -> P (String c0 (String c1 (String c2 (String c3 rest))))) ->
  forall d, P d.
Proof.
  intros H0 H1 H2 H3 H4.
  fix go 1. intros [|c0 [|c1 [|c2 [|c3 rest]]]];
    [exact H0 | exact (H1 c0) | exact (H2 c0 c1) | exact (H3 c0 c1 c2)
    | exact (H4 c0 c1 c2 c3 rest (go rest))].
Qed.

Lemma canonical_is_encoding (d : string) :
  is_canonical_base64 d = true -> exists raw, d = b64encode raw.
Proof.
  induction d as [|c0|c0 c1|c0 c1 c2|c0 c1 c2 c3 rest IH] using string_ind4;
    try discriminate.
  - intros _. exists []. reflexivity.
  - cbn [is_canonical_base64].
    destruct (table_a2b_base64 c0) as [n0|] eqn:E0; [|discriminate].
    destruct (table_a2b_base64 c1) as [n1|] eqn:E1; [|discriminate].
    apply table_a2b_base64_inv in E0 as [L0 <-].
    apply table_a2b_base64_inv in E1 as [L1 <-].
    destruct (Ascii.eqb_spec c2 BASE64_PAD) as [->|Hc2].
    { rewrite !andb_true_iff. intros [[Hc3 Hrest] Hpad].
      apply Ascii.eqb_eq in Hc3. apply String.eqb_eq in Hrest.
      apply N.eqb_eq in Hpad. subst c3 rest.
      exists [ascii_of_N (o0 n0 n1)]. cbn [b64encode].
      rewrite (N_of_ascii_o0 n0 n1 L0 L1), (s0_of_octets n0 n1 L0 L1).
      rewrite (last_sextet_of_one n0 n1 L0 L1 Hpad). reflexivity. }
    destruct (table_a2b_base64 c2) as [n2|] eqn:E2; [|discriminate].
    apply table_a2b_base64_inv in E2 as [L2 <-].
    destruct (Ascii.eqb_spec c3 BASE64_PAD) as [->|Hc3].
    { rewrite !andb_true_iff. intros [Hrest Hpad].
      apply String.eqb_eq in Hrest. apply N.eqb_eq in Hpad. subst rest.
      exists [ascii_of_N (o0 n0 n1); ascii_of_N (o1 n1 n2)]. cbn [b64encode].
      rewrite (N_of_ascii_o0 n0 n1 L0 L1), (N_of_ascii_o1 n1 n2 L1 L2).
      rewrite (s0_of_octets n0 n1 L0 L1), (s1_of_octets n0 n1 n2 L0 L1 L2).
      rewrite (last_sextet_of_two n1 n2 L1 L2 Hpad). reflexivity. }
    destruct (table_a2b_base64 c3) as [n3|] eqn:E3; [|discriminate].
    apply table_a2b_base64_inv in E3 as [L3 <-].
    intros Hrest. destruct (IH Hrest) as [raw ->].
    exists (ascii_of_N (o0 n0 n1) :: ascii_of_N (o1 n1 n2) ::
            ascii_of_N (o2 n2 n3) :: raw).
    cbn [b64encode]. cbv [encode_quad String.append].
    rewrite (N_of_ascii_o0 n0 n1 L0 L1), (N_of_ascii_o1 n1 n2 L1 L2),
      (N_of_ascii_o2 n2 n3 L2 L3).
    rewrite (s0_of_octets n0 n1 L0 L1), (s1_of_octets n0 n1 n2 L0 L1 L2),
      (s2_of_octets n1 n2 n3 L1 L2 L3), (s3_of_octets n2 n3 L2 L3).
    reflexivity.
Qed.

Lemma sextet_ok_inv (n : N) :
  sextet_ok n = true ->
  table_a2b_base64 (b2a n) = Some n /\ Ascii.eqb (b2a n) BASE64_PAD = false.
Proof.
  unfold sextet_ok. rewrite !andb_true_iff, bool_decide_eq_true, negb_true_iff.
  tauto.
Qed.

Lemma pad_bits_of_one (a : ascii) :
  N.land (N.shiftl (N.land (N_of_ascii a) 3) 4) 15 = 0.
Proof.
  apply N.eqb_eq.
  apply (all_octets (fun x => N.land (N.shiftl (N.land x 3) 4) 15 =? 0)).
  vm_compute. reflexivity.
Qed.

Lemma pad_bits_of_two (b : ascii) :
  N.land (N.shiftl (N.land (N_of_ascii b) 15) 2) 3 = 0.
Proof.
  apply N.eqb_eq.
  apply (all_octets (fun y => N.land (N.shiftl (N.land y 15) 2) 3 =? 0)).
  vm_compute. reflexivity.
Qed.

Ltac see_sextet ok :=
  let Ht := fresh in
  let Hp := fresh in
  destruct (sextet_ok_inv _ ok) as [Ht Hp]; rewrite ?Ht, ?Hp; clear Ht Hp.

Lemma encoding_is_canonical (raw : bytes) :
  is_canonical_base64 (b64encode raw) = true.
Proof.
  induction raw as [|a|a b|a b c rest IH] using bytes_ind3.
  - reflexivity.
  - cbn [b64encode is_canonical_base64].
    see_sextet (s0_ok a). see_sextet (last_sextet_of_one_ok a).
    rewrite pad_bits_of_one. reflexivity.
  - cbn [b64encode is_canonical_base64].
    see_sextet (s0_ok a). see_sextet (s1_ok a b).
    see_sextet (last_sextet_of_two_ok b).
    rewrite pad_bits_of_two. reflexivity.
  - cbn [b64encode]. cbv [encode_quad String.append].
    cbn [is_canonical_base64].
    see_sextet (s0_ok a). see_sextet (s1_ok a b).
    see_sextet (s2_ok b c). see_sextet (s3_ok c).
    exact IH.
Qed.
End Base64Facts.

Example canonical_TWFu : is_canonical_base64 "TWFu" = true.
Proof. reflexivity. Qed.

Example canonical_TQ_padded : is_canonical_base64 "TQ==" = true.
Proof. reflexivity. Qed.

Example not_canonical_pad_bits : is_canonical_base64 "TR==" = false.
Proof. reflexivity. Qed.

Example not_canonical_unpadded : is_canonical_base64 "TWE" = false.
Proof. reflexivity. Qed.

Example reencoding_changes_sloppy_delta :
  Base64.b64decode "TR==" = inr ["M"%char] /\
  Base64.b64encode ["M"%char] = "TQ=="%string.
Proof. split; reflexivity. Qed.

Example b64encode_Man : Base64.b64encode ["M"; "a"; "n"]%char = "TWFu"%string.
Proof. reflexivity. Qed.

Example b64encode_Ma : Base64.b64encode ["M"; "a"]%char = "TWE="%string.
Proof. reflexivity. Qed.

Example b64encode_M : Base64.b64encode ["M"]%char = "TQ=="%string.
Proof. reflexivity. Qed.

Example b64decode_skips_newline :
  Base64.b64decode (String "T" (String "W" (String "010" "E="))) =
  inr ["M"; "a"]%char.
Proof. reflexivity. Qed.

Example b64decode_incorrect_padding :
  Base64.b64decode "TWE" = inl Base64.IncorrectPadding.
Proof. reflexivity. Qed.

(** ** The model-to-telephony pump *)

Lemma getitem_dict_get (d : json) (k : string) (v : json) :
  getitem d k = inr v -> dict_get d k = inr v.
Proof.
  destruct d; try discriminate. cbn.
  destruct (assoc k items); [auto|discriminate].
Qed.

Lemma getitem_dict_get_any (d : json) (k k' : string) (v : json) :
  getitem d k = inr v -> exists v', dict_get d k' = inr v'.
Proof.
  destruct d; try discriminate. intros _. cbn.
  destruct (assoc k' items); eauto.
Qed.

Section OpenAIPump.
Variable debug : bool.
Variable on_text_response : option (json -> M unit).
Variable on_speech_started : option (M unit).

(** The optional logging at the head of the loop body only extends the
    log. *)
Lemma log_event_effect (type_ response : json) (w : world) :
  exists lg',
    when (in_strs type_ log_event_types)
      (logger (Info "OpenAI event: {}" [type_]);;
       when debug (logger (Debug "Full response: {}" [response]))) w =
    (mk_world (session w) (openai_ws w) (twilio_ws w) (yielded w) lg', inr tt).
Proof.
  destruct w as [sd o t ys lg].
  destruct (in_strs type_ log_event_types), debug; eexists; reflexivity.
Qed.

Lemma audio_delta_effect (response : json) (d : string) (raw : Base64.bytes)
    (item : json) (w : world) :
  getitem response "delta" = inr (JStr d) ->
  Base64.b64decode d = inr raw ->
  dict_get response "item_id" = inr item ->
  is_open (twilio_ws w) = true ->
  exists lg',
    _handle_audio_delta debug response w =
    (after_audio_delta (Base64.b64encode raw) item lg' w, inr tt).
Proof.
  intros Hdelta Hraw Hitem Ho. open_world w. subst to.
  destruct response as [| | | | | |items]; try discriminate.
  cbn [getitem dict_get] in *.
  assert (Hget : truthy item = true ->
                 getitem (JDict items) "item_id" = inr item).
  { cbn [getitem]. destruct (assoc "item_id" items) as [v|].
    - injection Hitem as ->. reflexivity.
    - injection Hitem as <-. discriminate. }
  unfold _handle_audio_delta, _send_mark, after_audio_delta.
  run_relay. cbn [getitem dict_get py_b64decode].
  destruct (assoc "delta" items) as [v|]; [|discriminate].
  injection Hdelta as ->. cbn [py_b64decode]. rewrite Hraw.
  assert (Hnull : truthy JNull = false) by reflexivity.
  destruct (truthy item) eqn:Hti.
  - specialize (Hget eq_refl). cbn [getitem] in Hget.
    destruct (assoc "item_id" items) as [v|]; [|discriminate].
    injection Hitem as ->.
    destruct ssid as [sv|]; [destruct (truthy sv) eqn:Hsv|];
      destruct rst as [start|], debug;
      rewrite ?Hti, ?Hsv, ?Hnull, <- ?app_assoc, ?app_nil_r; eexists; reflexivity.
  - destruct (assoc "item_id" items) as [v|];
      injection Hitem as ->;
      (destruct ssid as [sv|]; [destruct (truthy sv) eqn:Hsv|]);
      destruct rst as [start|], debug;
      rewrite ?Hti, ?Hsv, ?Hnull, <- ?app_assoc, ?app_nil_r; eexists; reflexivity.
Qed.

Lemma openai_message_audio_delta (response : json) (d : string)
    (raw : Base64.bytes) (item : json) (w : world) :
  getitem response "type" = inr (JStr "response.audio.delta") ->
  getitem response "delta" = inr (JStr d) ->
  Base64.b64decode d = inr raw ->
  dict_get response "item_id" = inr item ->
  is_open (twilio_ws w) = true ->
  exists lg',
    openai_message debug None on_text_response on_speech_started
      (Text response) w =
    (after_audio_delta (Base64.b64encode raw) item lg' w, inr tt).
Proof.
  intros Htype Hdelta Hraw Hitem Ho.
  set (w1 := mk_world (session w) (openai_ws w) (twilio_ws w) (yielded w)
               (log w ++ Info "OpenAI event: {}" [JStr "response.audio.delta"]
                  :: (if debug then [Debug "Full response: {}" [response]] else []))).
  destruct (audio_delta_effect response d raw item w1 Hdelta Hraw Hitem Ho)
    as [lg' Hstep].
  exists lg'.
  destruct response as [| | | | | |items]; try discriminate.
  assert (Hdict : dict_get (JDict items) "type" = inr (JStr "response.audio.delta")).
  { cbn [getitem dict_get] in *.
    destruct (assoc "type" items); [congruence|discriminate]. }
  assert (Hin : contains (JDict items) "delta" = inr true).
  { cbn [getitem contains] in *.
    destruct (assoc "delta" items); [reflexivity|discriminate]. }
  assert (Hlog :
    when (in_strs (JStr "response.audio.delta") log_event_types)
      (logger (Info "OpenAI event: {}" [JStr "response.audio.delta"]);;
       when debug (logger (Debug "Full response: {}" [JDict items]))) w =
    (w1, inr tt)).
  { change (in_strs (JStr "response.audio.delta") log_event_types) with true.
    subst w1. destruct debug; run_relay; rewrite <- ?app_assoc; reflexivity. }
  unfold openai_message.
  step. step_lift Htype. step_with Hlog. step_lift Hdict.
  change (eq_str (JStr "response.audio.delta") "response.audio.delta") with true.
  cbv iota. step_lift Hin. cbv iota. step_with Hstep. reflexivity.
Qed.

(** C7, as the code has it.  For an audio delta whose [delta] decodes
    and whose [item_id] is present and truthy: the re-encoded payload is
    written to telephony as a media frame, [response_start_timestamp] is
    set to [latest_media_timestamp] if it was unset, the item id is
    recorded, and -- when the session has a stream id -- one mark frame
    is written and one token appended to [mark_queue]; without a stream
    id no mark is written and [mark_queue] stays as it was. *)
Theorem audio_delta_processed (response : json) (d : string)
    (raw : Base64.bytes) (item : json) (w : world) :
  getitem response "type" = inr (JStr "response.audio.delta") ->
  getitem response "delta" = inr (JStr d) ->
  Base64.b64decode d = inr raw ->
  getitem response "item_id" = inr item ->
  truthy item = true ->
  is_open (twilio_ws w) = true ->
  let r := openai_message debug None on_text_response on_speech_started
             (Text response) w in
  let sid := get_stream_sid (session w) in
  r.2 = inr tt /\
  sent (twilio_ws r.1) =
    sent (twilio_ws w) ++
    Wire.media sid (Base64.b64encode raw) ::
    (if truthy sid then [Wire.mark sid] else []) /\
  mark_queue (session r.1) =
    mark_queue (session w) ++
    (if truthy sid then ["responsePart"%string] else []) /\
  response_start_timestamp (session r.1) =
    Some (default (latest_media_timestamp (session w))
            (response_start_timestamp (session w))) /\
  last_assistant_item (session r.1) = item /\
  latest_media_timestamp (session r.1) = latest_media_timestamp (session w) /\
  stream_sid (session r.1) = stream_sid (session w) /\
  sent (openai_ws r.1) = sent (openai_ws w).
Proof.
  intros Htype Hdelta Hraw Hitem Hti Ho.
  destruct (openai_message_audio_delta response d raw item w Htype Hdelta
              Hraw (getitem_dict_get _ _ _ Hitem) Ho) as [lg' ->].
  cbn. rewrite Hti. repeat split; reflexivity.
Qed.

(** C10.  When the [delta] of an audio delta is canonical base64,
    decoding and re-encoding gives the delta back, and the media frame
    written to telephony carries exactly the delta as its payload. *)
Theorem audio_payload_passthrough (response : json) (d : string) (w : world) :
  is_canonical_base64 d = true ->
  getitem response "delta" = inr (JStr d) ->
  is_open (twilio_ws w) = true ->
  (exists raw, Base64.b64decode d = inr raw /\ Base64.b64encode raw = d) /\
  exists marks,
    sent (twilio_ws (_handle_audio_delta debug response w).1) =
    sent (twilio_ws w) ++
    Wire.media (get_stream_sid (session w)) d :: marks.
Proof.
  intros Hcanonical Hdelta Ho.
  destruct (canonical_is_encoding d Hcanonical) as [raw ->].
  pose proof (b64decode_b64encode raw) as Hraw.
  split; [exists raw; auto|].
  destruct (getitem_dict_get_any _ _ "item_id" _ Hdelta) as [item Hitem].
  destruct (audio_delta_effect response _ raw item w Hdelta Hraw Hitem Ho)
    as [lg' ->].
  cbn. eauto.
Qed.

Variable on_audio_response : option (json -> M unit).

(** C8.  A [conversation.item.created],
    [response.function_call_arguments.delta] or [response.done] event
    makes the generator yield one side-channel event carrying the
    response and the session id, and changes neither the session
    dictionary nor what has been written to either connection. *)
Theorem side_channel_event_keeps_session (response : json)
    (type_ kind : string) (w : world) :
  getitem response "type" = inr (JStr type_) ->
  side_channel_kind type_ = Some kind ->
  let r := openai_message debug on_audio_response on_text_response
             on_speech_started (Text response) w in
  r.2 = inr tt /\
  yielded r.1 =
    yielded w ++
    [JDict [("type", JStr kind); ("data", response);
            ("session_id", JStr (session_id (session w)))]%string] /\
  session r.1 = session w /\
  openai_ws r.1 = openai_ws w /\
  twilio_ws r.1 = twilio_ws w.
Proof.
  intros Htype Hkind.
  pose proof (getitem_dict_get _ _ _ Htype) as Hdict.
  destruct (log_event_effect (JStr type_) response w) as [lg' Hlog].
  unfold openai_message. cbn [json_loads].
  step. step_lift Htype. step_with Hlog. step_lift Hdict.
  unfold side_channel_kind in Hkind.
  destruct (String.eqb_spec type_ "conversation.item.created") as [->|_];
    [|destruct (String.eqb_spec type_ "response.function_call_arguments.delta")
        as [->|_];
      [|destruct (String.eqb_spec type_ "response.done") as [->|_];
        [|discriminate]]];
    injection Hkind as <-;
    eval_eq_str; cbv iota; step; eval_eq_str; cbv iota;
    step; repeat split; reflexivity.
Qed.
End OpenAIPump.

Lemma audio_delta_processed_witness :
  let r := openai_message false None None None
             (Text (Wire.audio_delta "item_1" "TWFu"))
             (playing_world 1000 1450 "item_0") in
  sent (twilio_ws r.1) =
    [Wire.media (JStr "MZ01") "TWFu"; Wire.mark (JStr "MZ01")] /\
  mark_queue (session r.1) = ["responsePart"; "responsePart"]%string /\
  response_start_timestamp (session r.1) = Some 1000 /\
  last_assistant_item (session r.1) = JStr "item_1".
Proof.
  pose proof (audio_delta_processed false None None
                (Wire.audio_delta "item_1" "TWFu") "TWFu" ["M"; "a"; "n"]%char
                (JStr "item_1") (playing_world 1000 1450 "item_0")
                eq_refl eq_refl eq_refl eq_refl eq_refl eq_refl)
    as (_ & Hs & Hq & Hr & Hi & _).
  exact (conj Hs (conj Hq (conj Hr Hi))).
Defined.

(** C7 as stated fails: an audio delta that arrives before the telephony
    ["start"] event (no stream id yet) is forwarded as a media frame, but
    no mark is sent and no token is appended to [mark_queue]. *)
Lemma audio_delta_before_start_appends_no_mark :
  let w := fresh_world "CA01" in
  let r := openai_message false None None None
             (Text (Wire.audio_delta "item_1" "TWFu")) w in
  r.2 = inr tt /\
  sent (twilio_ws r.1) = [Wire.media JNull "TWFu"] /\
  mark_queue (session r.1) = mark_queue (session w) /\
  length (mark_queue (session r.1)) <> S (length (mark_queue (session w))) /\
  response_start_timestamp (session r.1) = Some 0 /\
  last_assistant_item (session r.1) = JStr "item_1".
Proof. cbv zeta. repeat split; try reflexivity. discriminate. Qed.

Lemma audio_payload_passthrough_witness :
  exists marks,
    sent (twilio_ws (_handle_audio_delta false (Wire.audio_delta "item_1" "TWFu")
                       (playing_world 1000 1450 "item_0")).1) =
    Wire.media (JStr "MZ01") "TWFu" :: marks.
Proof.
  refine (proj2 (audio_payload_passthrough false
                   (Wire.audio_delta "item_1" "TWFu") "TWFu"
                   (playing_world 1000 1450 "item_0") eq_refl eq_refl eq_refl)).
Defined.

Lemma side_channel_event_keeps_session_witness :
  let response := JDict [("type", JStr "response.done");
                         ("response", JDict [])]%string in
  let w := playing_world 1000 1450 "item_0" in
  let r := openai_message false None None None (Text response) w in
  yielded r.1 =
    [JDict [("type", JStr "response_complete");
            ("data", JDict [("type", JStr "response.done");
                            ("response", JDict [])]);
            ("session_id", JStr "CA01")]%string] /\
  session r.1 = session w.
Proof.
  pose proof (side_channel_event_keeps_session false None None None
                (JDict [("type", JStr "response.done");
                        ("response", JDict [])]%string)
                "response.done" "response_complete"
                (playing_world 1000 1450 "item_0") eq_refl eq_refl)
    as (_ & Hy & Hs & _).
  exact (conj Hy Hs).
Defined.

(** ** The mark queue under interleaved deltas and marks *)

Section MarkQueue.
Variable debug : bool.
Variable on_session_start : option (M unit).
Variable on_text_response : option (json -> M unit).
Variable on_speech_started : option (M unit).

Lemma mark_step (m : text_frame) (w : world) :
  is_mark m = true ->
  twilio_message on_session_start m w = (pop_mark w, inr tt).
Proof.
  destruct m as [raw|data]; [discriminate|]. cbn [is_mark].
  destruct (getitem data "event") as [|event] eqn:Hev; [discriminate|].
  intros Hmark. destruct event as [| | | |name| |]; try discriminate.
  cbn [eq_str] in Hmark. apply String.eqb_eq in Hmark. subst name.
  unfold twilio_message. cbn [json_loads].
  step. step_lift Hev. eval_eq_str. cbv iota.
  step. unfold pop_mark. destruct w as [sd o t ys lg]. cbn [session].
  destruct (mark_queue sd); reflexivity.
Qed.

Lemma delta_step (m : text_frame) (w : world) :
  decodable_audio_delta m = true ->
  is_open (twilio_ws w) = true ->
  exists payload item lg',
    openai_message debug None on_text_response on_speech_started m w =
    (after_audio_delta payload item lg' w, inr tt).
Proof.
  destruct m as [raw|response]; [discriminate|]. cbn [decodable_audio_delta].
  destruct (getitem response "type") as [|type_] eqn:Htype; [discriminate|].
  destruct (getitem response "delta") as [|[| | | |d| |]] eqn:Hdelta;
    try discriminate.
  destruct (Base64.b64decode d) as [|raw] eqn:Hraw;
    [rewrite andb_false_r; discriminate|].
  rewrite andb_true_r. intros Heq Ho.
  destruct type_ as [| | | |s| |]; try discriminate.
  cbn [eq_str] in Heq. apply String.eqb_eq in Heq. subst s.
  destruct (getitem_dict_get_any _ _ "item_id" _ Hdelta) as [item Hitem].
  destruct (openai_message_audio_delta debug on_text_response
              on_speech_started response d raw item w Htype Hdelta Hraw
              Hitem Ho) as [lg' Hstep].
  eauto.
Qed.

Lemma mark_queue_balance (evs : list relay_event) (qs : list queue_event)
    (w : world) :
  map classify evs = map Some qs ->
  truthy (get_stream_sid (session w)) = true ->
  is_open (twilio_ws w) = true ->
  let r := for_each (relay_step debug on_session_start None on_text_response
                       on_speech_started) evs w in
  r.2 = inr tt /\
  (length (mark_queue (session r.1)) + count_marks qs =
   length (mark_queue (session w)) + count_deltas qs +
   ignored_marks (length (mark_queue (session w))) qs)%nat.
Proof.
  revert qs w. induction evs as [|ev evs IH]; intros [|q qs] w Hcl Hsid Ho;
    try discriminate.
  - cbn. split; [reflexivity|lia].
  - cbn [map] in Hcl. injection Hcl as Hq Hcl.
    cbn [for_each]. cbv zeta.
    destruct ev as [m|m]; cbn [classify] in Hq.
    + destruct (is_mark m) eqn:Hm; [|discriminate]. injection Hq as <-.
      cbn [relay_step].
      erewrite bind_ok by exact (mark_step m w Hm). cbv beta.
      assert (Hsid' : truthy (get_stream_sid (session (pop_mark w))) = true).
      { unfold pop_mark. destruct (mark_queue (session w)); exact Hsid. }
      assert (Ho' : is_open (twilio_ws (pop_mark w)) = true).
      { unfold pop_mark. destruct (mark_queue (session w)); exact Ho. }
      destruct (IH qs (pop_mark w) Hcl Hsid' Ho') as [Hr Hlen].
      split; [exact Hr|].
      cbn [count_marks count_deltas ignored_marks].
      revert Hlen. unfold pop_mark.
      destruct (mark_queue (session w)) as [|tok rest] eqn:Hmq;
        cbn; rewrite ?Hmq; cbn; lia.
    + destruct (decodable_audio_delta m) eqn:Hm; [|discriminate].
      injection Hq as <-.
      cbn [relay_step].
      destruct (delta_step m w Hm Ho) as (payload & item & lg' & Hstep).
      erewrite bind_ok by exact Hstep. cbv beta.
      set (w' := after_audio_delta payload item lg' w).
      assert (Hsid' : truthy (get_stream_sid (session w')) = true) by exact Hsid.
      assert (Ho' : is_open (twilio_ws w') = true) by reflexivity.
      destruct (IH qs w' Hcl Hsid' Ho') as [Hr Hlen].
      split; [exact Hr|].
      cbn [count_marks count_deltas ignored_marks].
      revert Hlen. subst w'. cbn [after_audio_delta session mark_queue].
      cbv zeta. rewrite Hsid, length_app. cbn [length]. 
      replace (length (mark_queue (session w)) + 1)%nat
        with (S (length (mark_queue (session w)))) by lia.
      lia.
Qed.

(** C6, as the code has it.  While the session has a stream id and the
    telephony connection is open, an interleaving of decodable audio
    deltas and mark acknowledgments is processed without error and leaves
    [mark_queue] with its initial length, plus the number of deltas,
    minus the number of marks, plus the number of marks that arrived on
    an empty queue; so the plain difference when no mark arrived on an
    empty queue.  A mark on an empty queue changes nothing and raises
    nothing; any other mark removes the first token. *)
Theorem mark_queue_length (evs : list relay_event) (qs : list queue_event)
    (w : world) :
  map classify evs = map Some qs ->
  truthy (get_stream_sid (session w)) = true ->
  is_open (twilio_ws w) = true ->
  let r := for_each
             (relay_step debug on_session_start None on_text_response
                on_speech_started) evs w in
  let n0 := length (mark_queue (session w)) in
  r.2 = inr tt /\
  Z.of_nat (length (mark_queue (session r.1))) =
    Z.of_nat n0 + Z.of_nat (count_deltas qs) - Z.of_nat (count_marks qs) +
    Z.of_nat (ignored_marks n0 qs) /\
  (ignored_marks n0 qs = 0%nat ->
   Z.of_nat (length (mark_queue (session r.1))) =
     Z.of_nat n0 + Z.of_nat (count_deltas qs) - Z.of_nat (count_marks qs)) /\
  (forall (m : text_frame) (w' : world),
      is_mark m = true ->
      let r' := twilio_message on_session_start m w' in
      r'.2 = inr tt /\
      (mark_queue (session w') = [] -> r'.1 = w') /\
      (forall tok rest,
          mark_queue (session w') = tok :: rest ->
          mark_queue (session r'.1) = rest)).
Proof.
  intros Hcl Hsid Ho.
  destruct (mark_queue_balance evs qs w Hcl Hsid Ho) as [Hr Hlen].
  cbv zeta. repeat split.
  - exact Hr.
  - lia.
  - lia.
  - rewrite (mark_step m w') by assumption. reflexivity.
  - rewrite (mark_step m w') by assumption. unfold pop_mark. cbn [fst].
    intros ->. reflexivity.
  - rewrite (mark_step m w') by assumption. unfold pop_mark. cbn [fst].
    intros tok rest ->. reflexivity.
Qed.
End MarkQueue.

Lemma mark_queue_length_witness :
  let evs := [FromOpenAI (Text (Wire.audio_delta "item_1" "TWFu"));
              FromOpenAI (Text (Wire.audio_delta "item_1" "TWFu"));
              FromTwilio (Text (Wire.mark_in "responsePart"))] in
  let r := for_each (relay_step false None None None None) evs started_world in
  Z.of_nat (length (mark_queue (session r.1))) = 0 + 2 - 1.
Proof.
  pose proof (mark_queue_length false None None None
                [FromOpenAI (Text (Wire.audio_delta "item_1" "TWFu"));
                 FromOpenAI (Text (Wire.audio_delta "item_1" "TWFu"));
                 FromTwilio (Text (Wire.mark_in "responsePart"))]
                [AudioDelta; AudioDelta; MarkAck] started_world
                eq_refl eq_refl eq_refl) as (_ & _ & H & _).
  exact (H eq_refl).
Defined.

(** C6 as stated fails.  A mark that arrives on an empty queue (as right
    after an interruption) is dropped, so after a later delta the queue is
    longer than deltas minus marks; and an audio delta processed before
    the stream has started adds no token, so the queue is shorter than
    deltas minus marks. *)
Lemma mark_queue_length_is_not_the_difference :
  let delta := FromOpenAI (Text (Wire.audio_delta "item_1" "TWFu")) in
  let mark := FromTwilio (Text (Wire.mark_in "responsePart")) in
  let run evs w := for_each (relay_step false None None None None) evs w in
  let len r := Z.of_nat (length (mark_queue (session r.1))) in
  let difference qs := Z.of_nat (count_deltas qs) - Z.of_nat (count_marks qs) in
  map classify [mark; delta] = [Some MarkAck; Some AudioDelta] /\
  mark_queue (session started_world) = [] /\
  (run [mark; delta] started_world).2 = inr tt /\
  len (run [mark; delta] started_world) = 1 /\
  difference [MarkAck; AudioDelta] = 0 /\
  len (run [mark; delta] started_world) <> difference [MarkAck; AudioDelta] /\
  map classify [delta] = [Some AudioDelta] /\
  (run [delta] (fresh_world "CA01")).2 = inr tt /\
  len (run [delta] (fresh_world "CA01")) = 0 /\
  difference [AudioDelta] = 1 /\
  len (run [delta] (fresh_world "CA01")) <> difference [AudioDelta].
Proof. cbv zeta. repeat split; try reflexivity; vm_compute; discriminate. Qed.

(** ** Teardown *)
Section Teardown.
Import Main.
Variable import_openai : exn + unit.
Variable chat_completion : string -> exn + string.
Variable insert : CallMetrics -> insert_outcome.
Variable websocket_close : exn + unit.

Lemma save_call_metrics_active (b : bool) (row : CallMetrics) (s : server) :
  active_sessions (save_call_metrics insert b row s) = active_sessions s.
Proof. unfold save_call_metrics. destruct b, (insert row); reflexivity. Qed.

Lemma save_call_metrics_connections (b : bool) (row : CallMetrics) (s : server) :
  connections (save_call_metrics insert b row s) = connections s.
Proof. unfold save_call_metrics. destruct b, (insert row); reflexivity. Qed.

Lemma cleanup_session_active (v : AzureVoiceSession) (s : server) :
  active_sessions (cleanup_session websocket_close v s) = active_sessions s /\
  connections (cleanup_session websocket_close v s) = connections s /\
  call_metrics (cleanup_session websocket_close v s) = call_metrics s.
Proof.
  unfold cleanup_session.
  destruct (az_websocket v), websocket_close; repeat split; reflexivity.
Qed.

(** A log that serialises holds dictionaries only, so reading the
    speaker of its first entry fails. *)
Lemma json_dumps_dicts (conversation_log : list log_item) (ds : list json) :
  json_dumps conversation_log = inr ds -> conversation_log <> [] ->
  conversation_lines conversation_log = inl AttributeError.
Proof.
  destruct conversation_log as [|[entry|d] rest];
    [congruence | discriminate | reflexivity].
Qed.

(** Obtaining the summary only adds to the log; for a log that
    serialises it is one of the two fixed texts. *)
Lemma summary_effect (conversation_log : list log_item) (s : server) :
  exists lg' summary,
    match conversation_log with
    | _ :: _ =>
        generate_conversation_summary import_openai chat_completion
          conversation_log s
    | [] => (s, "No conversation recorded"%string)
    end =
    (mk_server (active_sessions s) (connections s) (azure_sessions s)
       (call_metrics s) (released s) lg', summary) /\
    (forall ds, json_dumps conversation_log = inr ds ->
       summary = match conversation_log with
                 | [] => "No conversation recorded"%string
                 | _ :: _ => "Summary generation failed"%string
                 end).
Proof.
  destruct s as [a c z m r lg]. destruct conversation_log as [|item rest].
  - exists lg, "No conversation recorded"%string. split; reflexivity.
  - unfold generate_conversation_summary.
    destruct import_openai as [e|[]].
    { eexists _, _. split; reflexivity. }
    destruct (conversation_lines (item :: rest)) as [e|lines] eqn:Hlines.
    { eexists _, _. split; reflexivity. }
    destruct (chat_completion (String.concat (String "010" "") lines));
      eexists _, _; (split; [reflexivity|]); intros ds Hds;
      try reflexivity.
    rewrite (json_dumps_dicts _ ds Hds) in Hlines by discriminate.
    discriminate.
Qed.

(** Teardown of a registered call whose log serialises, step by step. *)
Lemma cleanup_unfold (now : Z) (id : string) (s : server) (cs : CallSession)
    (transcript : list json) :
  active_sessions s !! id = Some cs ->
  json_dumps (conversation_log cs) = inr transcript ->
  exists lg0,
    cleanup_call_session import_openai chat_completion insert websocket_close
      now id s =
    let cs' := mk_call (session_id cs) (call_sid cs) (user_id cs)
                 (has_vendor_details cs) (start_time cs) (Some now) "completed"
                 (azure_session cs) (conversation_log cs) in
    let s1 := save_call_metrics insert (has_vendor_details cs)
                (metrics_row now cs transcript)
                (mk_server (<[id := cs']> (active_sessions s)) (connections s)
                   (azure_sessions s) (call_metrics s) (released s) lg0) in
    let s2 := match azure_session cs with
              | Some (OpenAISession w) => close_openai websocket_close w s1
              | Some (LegacySession v) => cleanup_session websocket_close v s1
              | None => s1
              end in
    logger (Info "Call session {} cleaned up successfully" [id])
      (disconnect id
         (mk_server (delete id (active_sessions s2)) (connections s2)
            (azure_sessions s2) (call_metrics s2) (released s2) (log s2))).
Proof.
  intros Hid Hdumps. unfold cleanup_call_session. rewrite Hid. cbv zeta.
  cbn [Main.session_id call_sid user_id has_vendor_details start_time
       azure_session conversation_log].
  match goal with
  | |- context [match conversation_log cs with
                | [] => (?S, _) | _ :: _ => _ end] =>
      destruct (summary_effect (conversation_log cs) S)
        as (lg0 & summary & -> & Hsummary)
  end.
  cbn [active_sessions connections azure_sessions call_metrics released].
  rewrite Hdumps, (Hsummary transcript Hdumps).
  exists lg0. unfold metrics_row.
  match goal with
  | |- context [del_active_session id ?S] => set (s2 := S)
  end.
  assert (Hin : is_Some (active_sessions s2 !! id)).
  { subst s2.
    destruct (azure_session cs) as [[w|v]|];
      unfold close_openai; cbn [active_sessions];
      rewrite ?(proj1 (cleanup_session_active _ _)), save_call_metrics_active;
      cbn [active_sessions]; rewrite lookup_insert_eq; eauto. }
  unfold del_active_session. destruct Hin as [cs' ->]. reflexivity.
Qed.

(** Teardown of a registered call whose log does not serialise ends at
    [json.dumps]: the call stays registered, stamped as completed. *)
Lemma cleanup_stops (now : Z) (id : string) (s : server) (cs : CallSession)
    (e : exn) :
  active_sessions s !! id = Some cs ->
  json_dumps (conversation_log cs) = inl e ->
  exists lg0,
    cleanup_call_session import_openai chat_completion insert websocket_close
      now id s =
    logger (Error "Error cleaning up call session {}" [id] e)
      (mk_server
         (<[id := mk_call (session_id cs) (call_sid cs) (user_id cs)
                    (has_vendor_details cs) (start_time cs) (Some now)
                    "completed" (azure_session cs) (conversation_log cs)]>
            (active_sessions s))
         (connections s) (azure_sessions s) (call_metrics s) (released s) lg0).
Proof.
  intros Hid Hdumps. unfold cleanup_call_session. rewrite Hid. cbv zeta.
  cbn [Main.session_id call_sid user_id has_vendor_details start_time
       azure_session conversation_log].
  match goal with
  | |- context [match conversation_log cs with
                | [] => (?S, _) | _ :: _ => _ end] =>
      destruct (summary_effect (conversation_log cs) S)
        as (lg0 & summary & -> & _)
  end.
  cbn [active_sessions connections azure_sessions call_metrics released].
  rewrite Hdumps. exists lg0. reflexivity.
Qed.

Lemma cleanup_removes (now : Z) (id : string) (s : server) (cs : CallSession)
    (transcript : list json) :
  active_sessions s !! id = Some cs ->
  json_dumps (conversation_log cs) = inr transcript ->
  active_sessions
    (cleanup_call_session import_openai chat_completion insert websocket_close
       now id s) !! id = None.
Proof.
  intros Hid Hdumps.
  destruct (cleanup_unfold now id s cs transcript Hid Hdumps) as [lg0 ->].
  cbv zeta. unfold disconnect, logger. cbn [connections active_sessions].
  match goal with
  | |- context [connections ?S !! id] => destruct (connections S !! id)
  end; cbn [active_sessions]; apply lookup_delete_eq.
Qed.

End Teardown.



Example cleanup_saves_metrics_once :
  let cleanup := Main.cleanup_call_session (inr tt)
                   (fun _ => inr "summary"%string) (fun _ => Main.Inserted)
                   (inr tt) in
  let s1 := cleanup 160 "CA01"%string one_call_server in
  Main.call_metrics s1 =
    [Main.mk_metrics (Some "user-1"%string) "CA01" 60 (JList [hello_entry])
       "Summary generation failed" 100 160] /\
  Main.call_metrics (cleanup 170 "CA01"%string s1) = Main.call_metrics s1 /\
  length (Main.released s1) = 1%nat.
Proof. vm_compute. repeat split. Qed.

(** ** Further behaviour of the telephony-to-model pump *)
Section TwilioEvents.
Variable on_session_start : option (M unit).

(** X1.  A telephony ["start"] event stores the stream id and puts
    [response_start_timestamp], [latest_media_timestamp] and
    [last_assistant_item] back to their initial values; it leaves
    [mark_queue] as it is, writes to neither connection, and then runs
    the callback. *)
Theorem start_event_resets_clock (data start sid : json) (w : world) :
  getitem data "event" = inr (JStr "start") ->
  getitem data "start" = inr start ->
  getitem start "streamSid" = inr sid ->
  twilio_message on_session_start (Text data) w =
  (match on_session_start with Some callback => callback | None => ret tt end)
    (mk_world
       (mk_session (session_id (session w)) (is_active (session w)) (Some sid)
          0 JNull (mark_queue (session w)) None)
       (openai_ws w) (twilio_ws w) (yielded w)
       (log w ++ [Info "Twilio stream started: {}" [sid]])).
Proof.
  intros Hev Hstart Hsid. unfold twilio_message. cbn [json_loads].
  step. step_lift Hev. eval_eq_str. cbv iota.
  step_lift Hstart. step_lift Hsid.
  do 5 step. destruct w as [[] o t ys lg]. reflexivity.
Qed.

(** X2.  A telephony event that is none of ["media"], ["start"] and
    ["mark"] -- ["connected"], ["stop"], anything else -- is skipped: the
    state is unchanged and the loop goes on to the next message. *)
Theorem other_telephony_event_is_skipped (data event : json) (w : world) :
  getitem data "event" = inr event ->
  eq_str event "media" = false ->
  eq_str event "start" = false ->
  eq_str event "mark" = false ->
  twilio_message on_session_start (Text data) w = (w, inr tt).
Proof.
  intros Hev Hmedia Hstart Hmark. unfold twilio_message. cbn [json_loads].
  step. step_lift Hev. rewrite Hmedia, Hstart, Hmark. reflexivity.
Qed.
Lemma media_step (m : text_frame) (payload : json) (w : world) :
  media_payload m = Some payload ->
  is_open (openai_ws w) = true ->
  exists t,
    twilio_message on_session_start m w =
    (mk_world (set_latest_media_timestamp t (session w))
       (write (Wire.audio_append payload) (openai_ws w))
       (twilio_ws w) (yielded w) (log w), inr tt).
Proof.
  intros Hm Ho. destruct m as [raw|data]; [discriminate|].
  cbn [media_payload] in Hm.
  destruct (getitem data "event") as [|event] eqn:Hev; [discriminate|].
  destruct (getitem data "media") as [|media] eqn:Hmedia; [discriminate|].
  destruct (eq_str event "media") eqn:Heq; [|discriminate].
  destruct (getitem media "timestamp") as [|timestamp] eqn:Hts; [discriminate|].
  destruct (getitem media "payload") as [|p] eqn:Hp; [discriminate|].
  destruct (py_int timestamp) as [|t] eqn:Hint; [discriminate|].
  injection Hm as ->. exists t.
  unfold twilio_message. cbn [json_loads].
  step. step_lift Hev. rewrite Heq.
  step_lift Hmedia. step_lift Hts. step_lift Hint. step.
  step_lift Hmedia. step_lift Hp.
  unfold openai_send. cbn [openai_ws is_open]. rewrite Ho. reflexivity.
Qed.

(** X3.  Well-formed media frames are forwarded to the model one append
    per frame, in arrival order, each carrying the frame's payload as it
    came; nothing is written to telephony and nothing is logged. *)
Theorem media_frames_forwarded_in_order (frames : list text_frame)
    (payloads : list json) (w : world) :
  map media_payload frames = map Some payloads ->
  is_open (openai_ws w) = true ->
  let r := handle_twilio_to_openai on_session_start frames w in
  r.2 = inr tt /\
  sent (openai_ws r.1) =
    sent (openai_ws w) ++ map Wire.audio_append payloads /\
  twilio_ws r.1 = twilio_ws w /\
  mark_queue (session r.1) = mark_queue (session w) /\
  log r.1 = log w.
Proof.
  intros Hp Ho. unfold handle_twilio_to_openai, try_except. cbv zeta.
  assert (H : let r := for_each (twilio_message on_session_start) frames w in
              r.2 = inr tt /\
              (sent (openai_ws r.1) =
                 sent (openai_ws w) ++ map Wire.audio_append payloads /\
               twilio_ws r.1 = twilio_ws w /\
               mark_queue (session r.1) = mark_queue (session w) /\
               log r.1 = log w)).
  { revert payloads w Hp Ho.
    induction frames as [|m frames IH]; intros [|p payloads] w Hp Ho;
      try discriminate.
    - cbn. rewrite app_nil_r. auto.
    - cbn [map] in Hp. injection Hp as Hm Hp.
      destruct (media_step m p w Hm Ho) as [t Hstep].
      cbn [for_each]. cbv zeta. erewrite bind_ok by exact Hstep. cbv beta.
      match goal with |- context [for_each _ frames ?w1] =>
        specialize (IH payloads w1 Hp Ho) end.
      cbv zeta in IH. destruct IH as (Hr & Hs & Ht & Hq & Hl).
      rewrite Hr, Hs, Ht, Hq, Hl. cbn. rewrite <- app_assoc.
      repeat split; reflexivity. }
  cbv zeta in H.
  destruct (for_each _ frames w) as [w' [e|[]]]; cbn [fst snd] in *.
  - destruct H as [H _]. discriminate.
  - exact H.
Qed.

(** X4.  A media frame with a readable timestamp but no payload moves
    [latest_media_timestamp] before the missing key is noticed: the clock
    is updated, nothing is forwarded, and the [KeyError] ends the pump
    after being logged. *)
Theorem media_frame_without_payload (data media timestamp : json) (t : Z)
    (e : exn) (later : list text_frame) (w : world) :
  getitem data "event" = inr (JStr "media") ->
  getitem data "media" = inr media ->
  getitem media "timestamp" = inr timestamp ->
  py_int timestamp = inr t ->
  getitem media "payload" = inl e ->
  handle_twilio_to_openai on_session_start (Text data :: later) w =
  (logged (Error "Error in Twilio to OpenAI handler" e)
     (mk_world (set_latest_media_timestamp t (session w)) (openai_ws w)
        (twilio_ws w) (yielded w) (log w)),
   inl e).
Proof.
  intros Hev Hmedia Hts Hint Hp.
  assert (Hstep : twilio_message on_session_start (Text data) w =
                  (mk_world (set_latest_media_timestamp t (session w))
                     (openai_ws w) (twilio_ws w) (yielded w) (log w), inl e)).
  { unfold twilio_message. cbn [json_loads].
    step. step_lift Hev. eval_eq_str. cbv iota.
    step_lift Hmedia. step_lift Hts. step_lift Hint. step.
    step_lift Hmedia. unfold mbind, M_bind, lift. rewrite Hp. reflexivity. }
  unfold handle_twilio_to_openai, try_except. cbn [for_each].
  unfold mbind at 1, M_bind at 1. rewrite Hstep. reflexivity.
Qed.
End TwilioEvents.

(** ** Further behaviour of the interruption handler *)

Lemma bind_fails {A B} (m : M A) (k : A -> M B) (w w1 : world) (e : exn) :
  m w = (w1, inl e) -> (m ≫= k) w = (w1, inl e).
Proof. intros H. unfold mbind, M_bind. rewrite H. reflexivity. Qed.

Section InterruptionEdges.
Variable debug : bool.

Lemma interruption_effect (w : world) (start : Z) :
  mark_queue (session w) <> [] ->
  response_start_timestamp (session w) = Some start ->
  is_open (openai_ws w) = true ->
  is_open (twilio_ws w) = true ->
  exists lg',
    _handle_speech_interruption debug w = (after_interruption start lg' w, inr tt).
Proof.
  open_world w. intros Hq -> -> ->.
  destruct mq as [|tok mq]; [congruence|].
  unfold _handle_speech_interruption, after_interruption. run_relay.
  destruct debug, (truthy lai); eexists; reflexivity.
Qed.

(** X5.  When playback is in flight but no assistant item is recorded,
    the interruption sends no truncate instruction to the model; it still
    sends the clear instruction to telephony and resets the playback
    fields. *)
Theorem interruption_without_item (w : world) (start : Z) :
  mark_queue (session w) <> [] ->
  response_start_timestamp (session w) = Some start ->
  truthy (last_assistant_item (session w)) = false ->
  is_open (twilio_ws w) = true ->
  let r := _handle_speech_interruption debug w in
  r.2 = inr tt /\
  openai_ws r.1 = openai_ws w /\
  sent (twilio_ws r.1) =
    sent (twilio_ws w) ++ [Wire.clear (get_stream_sid (session w))] /\
  mark_queue (session r.1) = [] /\
  last_assistant_item (session r.1) = JNull /\
  response_start_timestamp (session r.1) = None.
Proof.
  open_world w. intros Hq -> Hlai ->.
  destruct mq as [|tok mq]; [congruence|].
  unfold _handle_speech_interruption. cbv zeta.
  destruct debug; run_relay; rewrite Hlai; repeat split; reflexivity.
Qed.

(** X6.  When the model connection is closed, the failed truncate is
    caught inside the handler: the handler returns normally and logs the
    error, but the clear instruction is not sent and the playback fields
    are not reset. *)
Theorem interruption_on_closed_model_connection (w : world) (start : Z) :
  mark_queue (session w) <> [] ->
  response_start_timestamp (session w) = Some start ->
  truthy (last_assistant_item (session w)) = true ->
  is_open (openai_ws w) = false ->
  let r := _handle_speech_interruption debug w in
  r.2 = inr tt /\
  session r.1 = session w /\
  openai_ws r.1 = openai_ws w /\
  twilio_ws r.1 = twilio_ws w /\
  last (log r.1) =
    Some (Error "Error handling speech interruption" ConnectionClosed).
Proof.
  open_world w. intros Hq -> Hlai ->.
  destruct mq as [|tok mq]; [congruence|].
  unfold _handle_speech_interruption. cbv zeta.
  destruct debug; run_relay; rewrite Hlai; cbv iota;
    repeat split; try reflexivity; apply last_snoc.
Qed.

(** X7.  With both connections open, a second interruption right after a
    first one finds the queue empty and does nothing: no second truncate
    or clear is sent. *)
Theorem second_interruption_is_noop (w : world) :
  is_open (openai_ws w) = true ->
  is_open (twilio_ws w) = true ->
  let w1 := (_handle_speech_interruption debug w).1 in
  _handle_speech_interruption debug w1 = (w1, inr tt).
Proof.
  open_world w. intros -> ->.
  unfold _handle_speech_interruption. cbv zeta.
  destruct mq as [|tok mq], rst as [start|], debug, (truthy lai) eqn:Hlai;
    run_relay; rewrite ?Hlai; reflexivity.
Qed.
End InterruptionEdges.

(** ** Further behaviour of the model-to-telephony pump *)
Section AudioDeltaEdges.
Variable debug : bool.
Variable on_audio_response : option (json -> M unit).
Variable on_text_response : option (json -> M unit).
Variable on_speech_started : option (M unit).

(** X8.  An audio delta whose [delta] is missing or does not decode as
    base64 is dropped inside the handler: nothing is sent, the session is
    untouched, the error is logged once and the handler returns normally,
    so the pump goes on. *)
Theorem undecodable_delta_is_dropped (response : json) (e : exn) (w : world) :
  decoded_delta response = inl e ->
  _handle_audio_delta debug response w =
  (logged (Error "Error handling audio delta" e) w, inr tt).
Proof.
  unfold decoded_delta. intros He.
  assert (Hbody : forall (k : Base64.bytes -> M unit),
             (delta ← lift (getitem response "delta");
              raw ← lift (py_b64decode delta); k raw) w = (w, inl e)).
  { intros k. destruct (getitem response "delta") as [e'|delta] eqn:Hd.
    - injection He as ->. apply bind_fails. reflexivity.
    - step. apply bind_fails. unfold lift. rewrite He. reflexivity. }
  unfold _handle_audio_delta, try_except. rewrite Hbody. reflexivity.
Qed.

(** X9.  When the telephony connection is closed, the failed media send
    is caught inside the handler: the session is untouched (no start
    timestamp is anchored, no item recorded, no token queued) and the
    error is logged once. *)
Theorem audio_delta_on_closed_telephony (response : json)
    (raw : Base64.bytes) (w : world) :
  decoded_delta response = inr raw ->
  is_open (twilio_ws w) = false ->
  _handle_audio_delta debug response w =
  (logged (Error "Error handling audio delta" ConnectionClosed) w, inr tt).
Proof.
  unfold decoded_delta. intros Hraw Ho.
  destruct (getitem response "delta") as [|delta] eqn:Hd; [discriminate|].
  unfold _handle_audio_delta, try_except.
  step_lift Hd. step_lift Hraw. cbv zeta. step.
  erewrite bind_fails; [reflexivity|].
  unfold twilio_send_json. rewrite Ho. reflexivity.
Qed.

(** X10.  A model message whose type cannot be read -- undecodable text,
    JSON that is not an object, an object without ["type"] -- ends the
    model-to-telephony pump: the error is logged once and raised again,
    the session and both connections are untouched and the messages
    behind it are not processed. *)
Theorem untyped_model_message_ends_pump (m : text_frame) (e : exn)
    (later : list text_frame) (w : world) :
  event_type m = inl e ->
  handle_openai_to_twilio debug on_audio_response on_text_response
    on_speech_started (m :: later) w =
  (logged (Error "Error in OpenAI to Twilio handler" e) w, inl e).
Proof.
  unfold event_type. intros He.
  assert (Hstep : openai_message debug on_audio_response on_text_response
                    on_speech_started m w = (w, inl e)).
  { unfold openai_message.
    destruct (json_loads m) as [e'|response] eqn:Hm.
    - injection He as ->. apply bind_fails. reflexivity.
    - step. apply bind_fails. unfold lift. rewrite He. reflexivity. }
  unfold handle_openai_to_twilio, try_except. cbn [for_each].
  unfold mbind at 1, M_bind at 1. rewrite Hstep. reflexivity.
Qed.

(** X11.  A model event the loop has no branch for -- an ["error"]
    event, ["session.updated"], an audio delta without a ["delta"] key --
    is at most logged: nothing is sent or yielded, the session is
    unchanged, and the loop goes on. *)
Theorem unhandled_model_event_only_logged (response type_ : json) (w : world) :
  getitem response "type" = inr type_ ->
  (eq_str type_ "response.audio.delta" = false \/
   contains response "delta" = inr false) ->
  eq_str type_ "response.text.delta" = false ->
  eq_str type_ "input_audio_buffer.speech_started" = false ->
  eq_str type_ "conversation.item.created" = false ->
  eq_str type_ "response.function_call_arguments.delta" = false ->
  eq_str type_ "response.done" = false ->
  let r := openai_message debug on_audio_response on_text_response
             on_speech_started (Text response) w in
  r.2 = inr tt /\
  session r.1 = session w /\
  openai_ws r.1 = openai_ws w /\
  twilio_ws r.1 = twilio_ws w /\
  yielded r.1 = yielded w.
Proof.
  intros Htype Hdelta Htext Hspeech Hitem Hcall Hdone.
  pose proof (getitem_dict_get _ _ _ Htype) as Hdict.
  destruct (log_event_effect debug type_ response w) as [lg' Hlog].
  unfold openai_message. cbn [json_loads]. cbv zeta.
  step. step_lift Htype. step_with Hlog. step_lift Hdict.
  assert (Hhas : (if eq_str type_ "response.audio.delta"
                  then lift (contains response "delta")
                  else lift (inr false))
                   (mk_world (session w) (openai_ws w) (twilio_ws w)
                      (yielded w) lg') =
                 (mk_world (session w) (openai_ws w) (twilio_ws w)
                    (yielded w) lg', inr false)).
  { destruct Hdelta as [-> | Hc]; [reflexivity|].
    destruct (eq_str type_ "response.audio.delta");
      [unfold lift; rewrite Hc|]; reflexivity. }
  step_with Hhas. cbv iota.
  rewrite Htext, Hspeech, Hitem, Hcall, Hdone.
  repeat split; reflexivity.
Qed.
End AudioDeltaEdges.

(** ** What the relay does to the audio payload *)
Section Payload.
Import Base64.
Variable debug : bool.

Lemma decoded_delta_inv (response : json) (raw : bytes) :
  decoded_delta response = inr raw ->
  exists d, getitem response "delta" = inr (JStr d) /\ b64decode d = inr raw.
Proof.
  unfold decoded_delta.
  destruct (getitem response "delta") as [|[| | | |d| |]]; try discriminate.
  cbn [py_b64decode]. destruct (b64decode d) as [[]|raw'] eqn:Hd;
    try discriminate.
  intros [= ->]. eauto.
Qed.

(** X12.  Whatever decodable delta the model sends, the payload written
    to telephony is canonical base64 and decodes to the same octets as
    the delta. *)
Theorem forwarded_payload_is_canonical (response : json) (raw : bytes)
    (w : world) :
  decoded_delta response = inr raw ->
  is_open (twilio_ws w) = true ->
  exists payload marks,
    sent (twilio_ws (_handle_audio_delta debug response w).1) =
      sent (twilio_ws w) ++
      Wire.media (get_stream_sid (session w)) payload :: marks /\
    is_canonical_base64 payload = true /\
    b64decode payload = inr raw.
Proof.
  intros Hraw Ho.
  destruct (decoded_delta_inv response raw Hraw) as (d & Hdelta & Hd).
  destruct (getitem_dict_get_any _ _ "item_id" _ Hdelta) as [item Hitem].
  destruct (audio_delta_effect debug response d raw item w Hdelta Hd Hitem Ho)
    as [lg' ->].
  exists (b64encode raw). eexists. cbn [fst after_audio_delta twilio_ws sent].
  split; [reflexivity|].
  split; [apply encoding_is_canonical | apply b64decode_b64encode].
Qed.

Lemma a2b_base64_skips (s1 s2 : string) (c : ascii) :
  table_a2b_base64 c = None ->
  Ascii.eqb c BASE64_PAD = false ->
  forall quad_pos leftchar pads bin_data,
    a2b_base64 (s1 +:+ String c s2) quad_pos leftchar pads bin_data =
    a2b_base64 (s1 +:+ s2) quad_pos leftchar pads bin_data.
Proof.
  intros Hc Hpad. induction s1 as [|c1 s1 IH]; intros quad_pos leftchar pads bin_data.
  - cbv [String.append]. cbn [a2b_base64]. rewrite Hpad, Hc. reflexivity.
  - change (String c1 s1 +:+ String c s2) with (String c1 (s1 +:+ String c s2)).
    change (String c1 s1 +:+ s2) with (String c1 (s1 +:+ s2)).
    cbn [a2b_base64].
    destruct (Ascii.eqb c1 BASE64_PAD), (table_a2b_base64 c1) as [this_ch|];
      rewrite ?IH; reflexivity.
Qed.

Lemma is_ascii_str_skips (s1 s2 : string) (c : ascii) :
  (N_of_ascii c <? 128)%N = true ->
  is_ascii_str (s1 +:+ String c s2) = is_ascii_str (s1 +:+ s2).
Proof.
  intros Hc. unfold is_ascii_str. induction s1 as [|c1 s1 IH].
  - cbv [String.append]. cbn [list_ascii_of_string forallb]. rewrite Hc.
    reflexivity.
  - change (String c1 s1 +:+ String c s2) with (String c1 (s1 +:+ String c s2)).
    change (String c1 s1 +:+ s2) with (String c1 (s1 +:+ s2)).
    cbn [list_ascii_of_string forallb]. rewrite IH. reflexivity.
Qed.

(** X13.  An ASCII character outside the base64 alphabet (a line break,
    a space) inside a delta is ignored by the decoder; when the rest of
    the delta is canonical, the payload written to telephony is the delta
    without that character. *)
Theorem stray_character_is_removed (response : json) (s1 s2 : string)
    (c : ascii) (w : world) :
  table_a2b_base64 c = None ->
  Ascii.eqb c BASE64_PAD = false ->
  (N_of_ascii c <? 128)%N = true ->
  is_canonical_base64 (s1 +:+ s2) = true ->
  getitem response "delta" = inr (JStr (s1 +:+ String c s2)) ->
  is_open (twilio_ws w) = true ->
  b64decode (s1 +:+ String c s2) = b64decode (s1 +:+ s2) /\
  exists marks,
    sent (twilio_ws (_handle_audio_delta debug response w).1) =
      sent (twilio_ws w) ++
      Wire.media (get_stream_sid (session w)) (s1 +:+ s2) :: marks.
Proof.
  intros Hc Hpad Hascii Hcanon Hdelta Ho.
  assert (Hsame : b64decode (s1 +:+ String c s2) = b64decode (s1 +:+ s2)).
  { unfold b64decode.
    rewrite (is_ascii_str_skips s1 s2 c Hascii), (a2b_base64_skips s1 s2 c Hc Hpad).
    reflexivity. }
  split; [exact Hsame|].
  destruct (canonical_is_encoding _ Hcanon) as [raw Henc].
  assert (Hd : b64decode (s1 +:+ String c s2) = inr raw).
  { rewrite Hsame, Henc. apply b64decode_b64encode. }
  destruct (getitem_dict_get_any _ _ "item_id" _ Hdelta) as [item Hitem].
  destruct (audio_delta_effect debug response _ raw item w Hdelta Hd Hitem Ho)
    as [lg' ->].
  rewrite Henc. cbn [fst after_audio_delta twilio_ws sent]. eauto.
Qed.

(** X14.  After an interruption the next audio delta starts a new
    response: [response_start_timestamp] is anchored at the current
    [latest_media_timestamp], not at the old start, and [mark_queue]
    holds exactly the one new token. *)
Theorem delta_after_interruption_anchors_afresh (response : json)
    (raw : bytes) (start : Z) (w : world) :
  mark_queue (session w) <> [] ->
  response_start_timestamp (session w) = Some start ->
  truthy (get_stream_sid (session w)) = true ->
  is_open (openai_ws w) = true ->
  is_open (twilio_ws w) = true ->
  decoded_delta response = inr raw ->
  let w1 := (_handle_speech_interruption debug w).1 in
  let r := _handle_audio_delta debug response w1 in
  r.2 = inr tt /\
  response_start_timestamp (session r.1) =
    Some (latest_media_timestamp (session w)) /\
  mark_queue (session r.1) = ["responsePart"%string].
Proof.
  intros Hq Hrst Hsid Hoo Hto Hraw.
  assert (Hv : exists v, stream_sid (session w) = Some v /\ truthy v = true).
  { unfold get_stream_sid in Hsid.
    destruct (stream_sid (session w)) as [v|]; [eauto|discriminate]. }
  destruct Hv as (v & Hv & Htv).
  destruct (interruption_effect debug w start Hq Hrst Hoo Hto) as [lg1 ->].
  destruct (decoded_delta_inv response raw Hraw) as (d & Hdelta & Hd).
  destruct (getitem_dict_get_any _ _ "item_id" _ Hdelta) as [item Hitem].
  cbv zeta. cbn [fst].
  assert (Hto1 : is_open (twilio_ws (after_interruption start lg1 w)) = true)
    by exact Hto.
  destruct (audio_delta_effect debug response d raw item
              (after_interruption start lg1 w) Hdelta Hd Hitem Hto1)
    as [lg' ->].
  cbn -[truthy]. unfold get_stream_sid. cbn [stream_sid].
  rewrite Hv, Htv. repeat split; reflexivity.
Qed.
End Payload.

(** ** What the pumps never do *)

Section Keeps.
Context (R : world -> world -> Prop) `{!PreOrder R}.

Lemma keeps_same {A} (m : M A) : (forall w, (m w).1 = w) -> keeps R m.
Proof. intros H w. rewrite H. reflexivity. Qed.

Lemma keeps_bind {A B} (m : M A) (k : A -> M B) :
  keeps R m -> (forall a, keeps R (k a)) -> keeps R (m ≫= k).
Proof.
  intros Hm Hk w. unfold mbind, M_bind.
  specialize (Hm w). destruct (m w) as [w1 [e|a]]; [exact Hm|].
  etransitivity; [exact Hm | apply Hk].
Qed.

Lemma keeps_try_except {A} (body : M A) (handler : exn -> M A) :
  keeps R body -> (forall e, keeps R (handler e)) ->
  keeps R (try_except body handler).
Proof.
  intros Hb Hh w. unfold try_except.
  specialize (Hb w). destruct (body w) as [w1 [e|a]]; [|exact Hb].
  etransitivity; [exact Hb | apply Hh].
Qed.

Lemma keeps_when (b : bool) (m : M unit) : keeps R m -> keeps R (when b m).
Proof. intros Hm. destruct b; [exact Hm|]. apply keeps_same. reflexivity. Qed.

Lemma keeps_for_each {A} (body : A -> M unit) (xs : list A) :
  (forall x, keeps R (body x)) -> keeps R (for_each body xs).
Proof.
  intros Hb. induction xs as [|x xs IH]; cbn [for_each].
  - apply keeps_same. reflexivity.
  - apply keeps_bind; [apply Hb | intros _; exact IH].
Qed.
End Keeps.

#[local] Instance keeps_tokens_preorder : PreOrder keeps_tokens.
Proof. split; unfold keeps_tokens; [intros w; tauto | intros a b c; tauto]. Qed.

#[local] Instance extends_preorder : PreOrder extends.
Proof.
  split; unfold extends.
  - intros w. repeat split; reflexivity.
  - intros a b c (H1 & H2 & H3 & H4 & H5 & H6 & H7 & H8)
      (G1 & G2 & G3 & G4 & G5 & G6 & G7 & G8).
    repeat split; try (etransitivity; eassumption); congruence.
Qed.

#[local] Instance same_clock_preorder : PreOrder same_clock.
Proof.
  split; unfold same_clock; [intros w; tauto|].
  intros a b c [] []. split; congruence.
Qed.

#[local] Instance same_telephony_preorder : PreOrder same_telephony.
Proof.
  split; unfold same_telephony; [intros w; tauto|].
  intros a b c [] []. split; congruence.
Qed.

#[local] Instance writes_to_model_preorder (P : json -> Prop) :
  PreOrder (writes_to_model P).
Proof.
  split; unfold writes_to_model.
  - intros w. exists []. rewrite app_nil_r. auto.
  - intros a b c (l1 & H1 & F1) (l2 & H2 & F2). exists (l1 ++ l2).
    rewrite H2, H1, app_assoc. split; [reflexivity|].
    apply Forall_app; auto.
Qed.

(** Takes a handler apart along its binds, handlers and branches;
    [known] closes the parts already dealt with. *)
Ltac keeps_struct known :=
  repeat first
    [ known
    | apply keeps_bind; [typeclasses eauto| |intros ?]
    | apply keeps_try_except; [typeclasses eauto| |intros ?]
    | apply keeps_when; [typeclasses eauto|]
    | apply keeps_for_each; [typeclasses eauto|intros ?]
    | progress cbv zeta
    | match goal with
      | |- keeps _ (match ?x with _ => _ end) => destruct x
      | |- keeps _ (if ?b then _ else _) => destruct b
      end ].

(** Closes a leaf: an action that leaves the state alone, or one
    primitive, run on a state taken apart. *)
Ltac keeps_leaf solver :=
  first [ apply keeps_same; [typeclasses eauto | reflexivity]
        | let w := fresh "w" in
          intros w; destruct w as [[? ? ? ? ? ? ?] [[] ?] [[] ?] ? ?];
          solver ].

Ltac extends_prim :=
  unfold extends; cbn; repeat split;
  solve [reflexivity | apply prefix_app_r; reflexivity].

Ltac same_clock_prim := unfold same_clock; cbn; auto.

Ltac same_telephony_prim := unfold same_telephony; cbn; auto.

Ltac writes_prim :=
  unfold writes_to_model; cbn;
  first [ exists []; rewrite app_nil_r; split; [reflexivity | constructor]
        | eexists [_]; split; [reflexivity|];
          repeat constructor;
          unfold is_truncate, is_audio_append, Wire.truncate, Wire.audio_append;
          eauto ].

Ltac tokens_prim :=
  unfold keeps_tokens, tokens_are_marks; cbn;
  let H := fresh in
  intros H; rewrite ?Forall_app; repeat constructor; auto.

(** The handlers and the two loop bodies keep a relation [R] whenever the
    primitives they are made of do; [prim] proves that for one primitive. *)
Ltac handler_keeps known prim :=
  keeps_struct known; first [ known | keeps_leaf prim ].

Section Extends.
Variable debug : bool.
Variable on_session_start : option (M unit).
Variable on_audio_response : option (json -> M unit).
Variable on_text_response : option (json -> M unit).
Variable on_speech_started : option (M unit).
Hypothesis session_start_extends :
  keeps extends
    (match on_session_start with Some callback => callback | None => ret tt end).
Hypothesis audio_response_extends : forall response,
  keeps extends
    (match on_audio_response with
     | Some callback => callback response | None => ret tt end).
Hypothesis text_response_extends : forall response,
  keeps extends
    (match on_text_response with
     | Some callback => callback response | None => ret tt end).
Hypothesis speech_started_extends :
  keeps extends
    (match on_speech_started with Some callback => callback | None => ret tt end).

Lemma send_mark_extends : keeps extends _send_mark.
Proof. unfold _send_mark. handler_keeps fail extends_prim. Qed.

Lemma audio_delta_extends (response : json) :
  keeps extends (_handle_audio_delta debug response).
Proof.
  unfold _handle_audio_delta.
  handler_keeps ltac:(apply send_mark_extends) extends_prim.
Qed.

Lemma interruption_extends : keeps extends (_handle_speech_interruption debug).
Proof. unfold _handle_speech_interruption. handler_keeps fail extends_prim. Qed.

Lemma twilio_message_extends (m : text_frame) :
  keeps extends (twilio_message on_session_start m).
Proof.
  unfold twilio_message.
  handler_keeps ltac:(apply session_start_extends) extends_prim.
Qed.

Lemma openai_message_extends (m : text_frame) :
  keeps extends
    (openai_message debug on_audio_response on_text_response
       on_speech_started m).
Proof.
  unfold openai_message.
  handler_keeps
    ltac:(first [ apply audio_delta_extends | apply interruption_extends
                | apply audio_response_extends | apply text_response_extends
                | apply speech_started_extends ])
    extends_prim.
Qed.

(** X15.  Whatever the two pumps are fed, in whatever interleaving, and
    whether or not a step raises: nothing that was written to either
    connection, yielded or logged is ever taken back or reordered, and
    the pumps never change the open state of a connection, the session id
    or [is_active] (given callbacks that do not either). *)
Theorem relay_only_extends (evs : list relay_event) (w : world) :
  extends w
    (for_each
       (relay_step debug on_session_start on_audio_response on_text_response
          on_speech_started) evs w).1.
Proof.
  revert w. change (keeps extends
    (for_each
       (relay_step debug on_session_start on_audio_response on_text_response
          on_speech_started) evs)).
  apply keeps_for_each; [typeclasses eauto|].
  intros [m|m]; cbn [relay_step];
    [apply twilio_message_extends | apply openai_message_extends].
Qed.
End Extends.

Section ModelPumpFrame.
Variable debug : bool.
Variable on_audio_response : option (json -> M unit).
Variable on_text_response : option (json -> M unit).
Variable on_speech_started : option (M unit).

Section Clock.
Hypothesis audio_response_clock : forall response,
  keeps same_clock
    (match on_audio_response with
     | Some callback => callback response | None => ret tt end).
Hypothesis text_response_clock : forall response,
  keeps same_clock
    (match on_text_response with
     | Some callback => callback response | None => ret tt end).
Hypothesis speech_started_clock :
  keeps same_clock
    (match on_speech_started with Some callback => callback | None => ret tt end).

Lemma send_mark_clock : keeps same_clock _send_mark.
Proof. unfold _send_mark. handler_keeps fail same_clock_prim. Qed.

Lemma audio_delta_clock (response : json) :
  keeps same_clock (_handle_audio_delta debug response).
Proof.
  unfold _handle_audio_delta.
  handler_keeps ltac:(apply send_mark_clock) same_clock_prim.
Qed.

Lemma interruption_clock : keeps same_clock (_handle_speech_interruption debug).
Proof. unfold _handle_speech_interruption. handler_keeps fail same_clock_prim. Qed.

(** X16.  The model-to-telephony pump only reads the telephony clock:
    whatever model messages it processes, and whether or not it ends in
    an error, [latest_media_timestamp] and the stream id are what they
    were (given callbacks that leave them alone). *)
Theorem model_pump_keeps_clock (messages : list text_frame) (w : world) :
  same_clock w
    (handle_openai_to_twilio debug on_audio_response on_text_response
       on_speech_started messages w).1.
Proof.
  revert w. change (keeps same_clock
    (handle_openai_to_twilio debug on_audio_response on_text_response
       on_speech_started messages)).
  unfold handle_openai_to_twilio, openai_message.
  handler_keeps
    ltac:(first [ apply audio_delta_clock | apply interruption_clock
                | apply audio_response_clock | apply text_response_clock
                | apply speech_started_clock ])
    same_clock_prim.
Qed.
End Clock.

Section Writes.
Hypothesis audio_response_writes : forall response,
  keeps (writes_to_model is_truncate)
    (match on_audio_response with
     | Some callback => callback response | None => ret tt end).
Hypothesis text_response_writes : forall response,
  keeps (writes_to_model is_truncate)
    (match on_text_response with
     | Some callback => callback response | None => ret tt end).
Hypothesis speech_started_writes :
  keeps (writes_to_model is_truncate)
    (match on_speech_started with Some callback => callback | None => ret tt end).

Lemma send_mark_writes : keeps (writes_to_model is_truncate) _send_mark.
Proof. unfold _send_mark. handler_keeps fail writes_prim. Qed.

Lemma audio_delta_writes (response : json) :
  keeps (writes_to_model is_truncate) (_handle_audio_delta debug response).
Proof.
  unfold _handle_audio_delta.
  handler_keeps ltac:(apply send_mark_writes) writes_prim.
Qed.

Lemma interruption_writes :
  keeps (writes_to_model is_truncate) (_handle_speech_interruption debug).
Proof. unfold _handle_speech_interruption. handler_keeps fail writes_prim. Qed.

(** X17.  The only thing the model-to-telephony pump ever writes to the
    model connection is a truncate instruction: what it adds there,
    over any sequence of model messages, is a list of
    [conversation.item.truncate] frames (given callbacks that write
    nothing else). *)
Theorem model_pump_writes_only_truncates (messages : list text_frame)
    (w : world) :
  writes_to_model is_truncate w
    (handle_openai_to_twilio debug on_audio_response on_text_response
       on_speech_started messages w).1.
Proof.
  revert w. change (keeps (writes_to_model is_truncate)
    (handle_openai_to_twilio debug on_audio_response on_text_response
       on_speech_started messages)).
  unfold handle_openai_to_twilio, openai_message.
  handler_keeps
    ltac:(first [ apply audio_delta_writes | apply interruption_writes
                | apply audio_response_writes | apply text_response_writes
                | apply speech_started_writes ])
    writes_prim.
Qed.
End Writes.
End ModelPumpFrame.

Section TelephonyPumpFrame.
Variable on_session_start : option (M unit).
Hypothesis session_start_telephony :
  keeps same_telephony
    (match on_session_start with Some callback => callback | None => ret tt end).
Hypothesis session_start_writes :
  keeps (writes_to_model is_audio_append)
    (match on_session_start with Some callback => callback | None => ret tt end).

(** X18.  The telephony-to-model pump only ever talks to the model:
    over any sequence of telephony messages it writes nothing to
    telephony and yields nothing, and what it adds to the model
    connection is a list of [input_audio_buffer.append] frames (given a
    callback that does the same). *)
Theorem telephony_pump_only_appends_audio (messages : list text_frame)
    (w : world) :
  let w' := (handle_twilio_to_openai on_session_start messages w).1 in
  same_telephony w w' /\ writes_to_model is_audio_append w w'.
Proof.
  cbv zeta. split; revert w.
  - change (keeps same_telephony
              (handle_twilio_to_openai on_session_start messages)).
    unfold handle_twilio_to_openai, twilio_message.
    handler_keeps ltac:(apply session_start_telephony) same_telephony_prim.
  - change (keeps (writes_to_model is_audio_append)
              (handle_twilio_to_openai on_session_start messages)).
    unfold handle_twilio_to_openai, twilio_message.
    handler_keeps ltac:(apply session_start_writes) writes_prim.
Qed.
End TelephonyPumpFrame.

Section Tokens.
Variable debug : bool.
Variable on_session_start : option (M unit).
Variable on_audio_response : option (json -> M unit).
Variable on_text_response : option (json -> M unit).
Variable on_speech_started : option (M unit).
Hypothesis session_start_tokens :
  keeps keeps_tokens
    (match on_session_start with Some callback => callback | None => ret tt end).
Hypothesis audio_response_tokens : forall response,
  keeps keeps_tokens
    (match on_audio_response with
     | Some callback => callback response | None => ret tt end).
Hypothesis text_response_tokens : forall response,
  keeps keeps_tokens
    (match on_text_response with
     | Some callback => callback response | None => ret tt end).
Hypothesis speech_started_tokens :
  keeps keeps_tokens
    (match on_speech_started with Some callback => callback | None => ret tt end).

Lemma pop_keeps_tokens :
  keeps keeps_tokens
    (sd ← get_session;
     match mark_queue sd with
     | _ :: rest => update_session (set_mark_queue rest)
     | [] => ret tt
     end).
Proof.
  intros [[sid act ssid lmt lai mq rst] o t ys lg].
  unfold keeps_tokens, tokens_are_marks. destruct mq as [|tok mq]; cbn.
  - auto.
  - intros H. inversion H. assumption.
Qed.

Lemma send_mark_tokens : keeps keeps_tokens _send_mark.
Proof. unfold _send_mark. handler_keeps fail tokens_prim. Qed.

Lemma audio_delta_tokens (response : json) :
  keeps keeps_tokens (_handle_audio_delta debug response).
Proof.
  unfold _handle_audio_delta.
  handler_keeps ltac:(apply send_mark_tokens) tokens_prim.
Qed.

Lemma interruption_tokens : keeps keeps_tokens (_handle_speech_interruption debug).
Proof. unfold _handle_speech_interruption. handler_keeps fail tokens_prim. Qed.

(** X19.  Every token in [mark_queue] is ["responsePart"]: if that holds
    before, it holds after any interleaving of telephony and model
    messages, whether or not a step raises (given callbacks that keep
    it). *)
Theorem mark_queue_holds_only_marks (evs : list relay_event) (w : world) :
  tokens_are_marks w ->
  tokens_are_marks
    (for_each
       (relay_step debug on_session_start on_audio_response on_text_response
          on_speech_started) evs w).1.
Proof.
  revert w. change (keeps keeps_tokens
    (for_each
       (relay_step debug on_session_start on_audio_response on_text_response
          on_speech_started) evs)).
  apply keeps_for_each; [typeclasses eauto|].
  intros [m|m]; cbn [relay_step].
  - unfold twilio_message.
    handler_keeps
      ltac:(first [apply pop_keeps_tokens | apply session_start_tokens])
      tokens_prim.
  - unfold openai_message.
    handler_keeps
      ltac:(first [ apply audio_delta_tokens | apply interruption_tokens
                  | apply audio_response_tokens | apply text_response_tokens
                  | apply speech_started_tokens ])
      tokens_prim.
Qed.
End Tokens.

(** ** Session set-up and context injection *)
Section SessionSetup.
Import Session.

(** X20.  When the connection is made and accepts messages,
    [create_session] writes the [session.update] frame first and then,
    only for a non-empty greeting, a user item asking to say the
    greeting followed by [response.create]; the session it creates and
    returns is the initial one (active, clock 0, empty mark queue,
    nothing playing, no stream id), whatever was there before, and the
    telephony connection is untouched.  When connecting raises, or the
    new connection is already closed, nothing is written, the error is
    logged once and raised again. *)
Theorem create_session_sends_configuration (call_id system_message voice : string)
    (temperature : json) (initial_greeting : option string) (e : exn)
    (w : world) :
  let run connecting :=
    create_session connecting call_id system_message voice temperature
      initial_greeting w in
  ((run (inr true)).2 = inr (mk_session call_id true None 0 JNull [] None) /\
   session (run (inr true)).1 = mk_session call_id true None 0 JNull [] None /\
   openai_ws (run (inr true)).1 =
     mk_transport true
       (Wire.session_update system_message voice temperature ::
        match initial_greeting with
        | Some greeting =>
            if String.eqb greeting EmptyString then []
            else [Wire.item_create "user" ("Please say: " +:+ greeting);
                  Wire.response_create]
        | None => []
        end) /\
   twilio_ws (run (inr true)).1 = twilio_ws w /\
   yielded (run (inr true)).1 = yielded w) /\
  run (inl e) = (logged (Error "Error creating OpenAI session" e) w, inl e) /\
  ((run (inr false)).2 = inl ConnectionClosed /\
   openai_ws (run (inr false)).1 = mk_transport false [] /\
   session (run (inr false)).1 = session w /\
   last (log (run (inr false)).1) =
     Some (Error "Error creating OpenAI session" ConnectionClosed)).
Proof.
  cbv zeta. open_world w. split; [|split; [reflexivity|]].
  - destruct initial_greeting as [greeting|].
    + destruct (String.eqb greeting EmptyString) eqn:Hg;
        unfold create_session, connect, _initialize_session,
          _send_initial_greeting;
        run_relay; rewrite Hg; repeat split; reflexivity.
    + repeat split; reflexivity.
  - unfold create_session, connect, _initialize_session. run_relay.
    repeat split; try reflexivity. apply last_snoc.
Qed.

(** X21.  [inject_rag_context] writes exactly one system item whose
    text is ["Context for the question '<question>': <context>"], and
    leaves the session and the telephony connection alone; on a closed
    connection it writes nothing, logs the error and still returns
    normally. *)
Theorem inject_rag_context_sends_one_item (context question : string)
    (w : world) :
  let r := inject_rag_context context question w in
  r.2 = inr tt /\
  session r.1 = session w /\
  twilio_ws r.1 = twilio_ws w /\
  (is_open (openai_ws w) = true ->
   sent (openai_ws r.1) =
     sent (openai_ws w) ++
     [Wire.item_create "system"
        ("Context for the question '" +:+ question +:+ "': " +:+ context)]) /\
  (is_open (openai_ws w) = false ->
   openai_ws r.1 = openai_ws w /\
   log r.1 = log w ++ [Error "Error injecting RAG context" ConnectionClosed]).
Proof.
  open_world w. unfold inject_rag_context. cbv zeta.
  destruct oo; run_relay; repeat split; try reflexivity; discriminate.
Qed.
End SessionSetup.

(** ** What teardown does to a registered session *)
Section TeardownEffects.
Import Main.
Variable import_openai : exn + unit.
Variable chat_completion : string -> exn + string.
Variable insert : CallMetrics -> insert_outcome.
Variable websocket_close : exn + unit.

Lemma disconnect_fields (id : string) (s : server) :
  active_sessions (disconnect id s) = active_sessions s /\
  azure_sessions (disconnect id s) = azure_sessions s /\
  call_metrics (disconnect id s) = call_metrics s /\
  released (disconnect id s) = released s.
Proof.
  unfold disconnect. destruct (connections s !! id); repeat split; reflexivity.
Qed.

Lemma disconnect_connections (id : string) (s : server) :
  connections (disconnect id s) = delete id (connections s).
Proof.
  unfold disconnect. destruct (connections s !! id) eqn:Hconn; cbn.
  - reflexivity.
  - symmetry. apply delete_id. exact Hconn.
Qed.

Lemma save_call_metrics_fields (b : bool) (row : CallMetrics) (s : server) :
  azure_sessions (save_call_metrics insert b row s) = azure_sessions s /\
  released (save_call_metrics insert b row s) = released s /\
  call_metrics (save_call_metrics insert b row s) =
    call_metrics s ++
    (if b then match insert row with Inserted => [row] | _ => [] end else []).
Proof.
  unfold save_call_metrics.
  destruct b, (insert row); cbn; rewrite ?app_nil_r; repeat split; reflexivity.
Qed.

(** X22.  Tearing down a registered call whose conversation log
    serialises removes that call, and only that call, from the
    registries: [active_sessions] and the websocket manager's
    connections lose exactly this id, every other entry is as before. *)
Theorem cleanup_removes_only_that_call (now : Z) (id : string) (s : server)
    (cs : CallSession) (transcript : list json) :
  active_sessions s !! id = Some cs ->
  json_dumps (conversation_log cs) = inr transcript ->
  let s' := cleanup_call_session import_openai chat_completion insert
              websocket_close now id s in
  active_sessions s' = delete id (active_sessions s) /\
  connections s' = delete id (connections s).
Proof.
  intros Hid Hdumps. cbv zeta.
  destruct (cleanup_unfold import_openai chat_completion insert websocket_close
              now id s cs transcript Hid Hdumps) as [lg0 ->].
  cbv zeta.
  set (s1 := save_call_metrics _ _ _ _).
  assert (H1 : active_sessions s1 = <[id := mk_call (session_id cs) (call_sid cs)
                 (user_id cs) (has_vendor_details cs) (start_time cs) (Some now)
                 "completed" (azure_session cs) (conversation_log cs)]>
                 (active_sessions s) /\ connections s1 = connections s).
  { subst s1.
    rewrite save_call_metrics_active, save_call_metrics_connections.
    split; reflexivity. }
  destruct H1 as [Ha Hc].
  set (s2 := match azure_session cs with
             | Some (OpenAISession w) => close_openai websocket_close w s1
             | Some (LegacySession v) => cleanup_session websocket_close v s1
             | None => s1 end).
  assert (H2 : active_sessions s2 = active_sessions s1 /\
               connections s2 = connections s1).
  { subst s2. destruct (azure_session cs) as [[w|v]|]; try (split; reflexivity).
    destruct (cleanup_session_active websocket_close v s1) as (? & ? & _).
    split; assumption. }
  destruct H2 as [Ha2 Hc2].
  change (active_sessions (logger ?r ?x)) with (active_sessions x).
  change (connections (logger ?r ?x)) with (connections x).
  rewrite (proj1 (disconnect_fields _ _)), disconnect_connections.
  cbn [active_sessions connections].
  rewrite Hc2, Hc, Ha2, Ha, delete_insert_eq. split; reflexivity.
Qed.


(** X24.  When the call is bridged to an OpenAI realtime session and
    its conversation log serialises, teardown hands exactly that session
    to [close_session]: it is marked inactive, and its model connection
    is closed unless closing raises; what had been written to the two
    connections, the mark queue and the session id are as they were. *)
Theorem cleanup_closes_realtime_session (now : Z) (id : string) (s : server)
    (cs : CallSession) (transcript : list json) (w : Relay.world) :
  active_sessions s !! id = Some cs ->
  json_dumps (conversation_log cs) = inr transcript ->
  azure_session cs = Some (OpenAISession w) ->
  let s' := cleanup_call_session import_openai chat_completion insert
              websocket_close now id s in
  exists w',
    released s' = released s ++ [OpenAISession w'] /\
    Relay.is_active (Relay.session w') = false /\
    Relay.openai_ws w' =
      match websocket_close with
      | inr _ => Relay.mk_transport false (Relay.sent (Relay.openai_ws w))
      | inl _ => Relay.openai_ws w
      end /\
    Relay.twilio_ws w' = Relay.twilio_ws w /\
    Relay.mark_queue (Relay.session w') = Relay.mark_queue (Relay.session w) /\
    Relay.session_id (Relay.session w') = Relay.session_id (Relay.session w).
Proof.
  intros Hid Hdumps Hw. cbv zeta.
  destruct (cleanup_unfold import_openai chat_completion insert websocket_close
              now id s cs transcript Hid Hdumps) as [lg0 ->].
  cbv zeta. rewrite Hw.
  exists (Relay.close_session websocket_close w).1. split.
  - change (released (logger ?r ?x)) with (released x).
    rewrite (proj2 (proj2 (proj2 (disconnect_fields _ _)))).
    cbn [released]. unfold close_openai. cbn [released].
    rewrite (proj1 (proj2 (save_call_metrics_fields _ _ _))). reflexivity.
  - destruct w as [[] [] [] ? ?], websocket_close as [e|[]];
      repeat split; reflexivity.
Qed.

(** X25.  When [json.dumps] rejects the conversation log, teardown is
    abandoned there: the call stays registered, stamped with the end
    time and the status ["completed"]; no row is stored, no voice
    session closed, no connection dropped; and the error is the last
    thing logged. *)
Theorem cleanup_abandoned_on_unserialisable_log (now : Z) (id : string)
    (s : server) (cs : CallSession) (e : exn) :
  active_sessions s !! id = Some cs ->
  json_dumps (conversation_log cs) = inl e ->
  let s' := cleanup_call_session import_openai chat_completion insert
              websocket_close now id s in
  active_sessions s' =
    <[id := mk_call (session_id cs) (call_sid cs) (user_id cs)
              (has_vendor_details cs) (start_time cs) (Some now) "completed"
              (azure_session cs) (conversation_log cs)]> (active_sessions s) /\
  connections s' = connections s /\
  azure_sessions s' = azure_sessions s /\
  call_metrics s' = call_metrics s /\
  released s' = released s /\
  e = TypeError /\
  last (log s') = Some (Error "Error cleaning up call session {}" [id] TypeError).
Proof.
  intros Hid Hdumps. cbv zeta.
  destruct (cleanup_stops import_openai chat_completion insert websocket_close
              now id s cs e Hid Hdumps) as [lg0 ->].
  assert (He : e = TypeError).
  { clear Hid. revert e Hdumps.
    induction (conversation_log cs) as [|[entry|d] rest IH]; intros e He;
      cbn in He; [discriminate | congruence |].
    destruct (json_dumps rest); [|discriminate].
    apply IH. congruence. }
  subst e. repeat split. apply last_snoc.
Qed.

(** X26.  For a call bridged to a legacy voice session whose log
    serialises: when closing its websocket returns (or it has none),
    teardown marks the session inactive and takes it out of the voice
    service's registry; when closing raises, the session is left as it
    was, still registered with the voice service.  Either way the call
    itself is removed. *)
Theorem cleanup_releases_legacy_session (now : Z) (id : string) (s : server)
    (cs : CallSession) (transcript : list json) (v : AzureVoiceSession) :
  active_sessions s !! id = Some cs ->
  json_dumps (conversation_log cs) = inr transcript ->
  azure_session cs = Some (LegacySession v) ->
  let s' := cleanup_call_session import_openai chat_completion insert
              websocket_close now id s in
  let raises :=
    match az_websocket v, websocket_close with
    | Some _, inl _ => true
    | _, _ => false
    end in
  active_sessions s' !! id = None /\
  azure_sessions s' =
    (if raises then azure_sessions s
     else delete (az_session_id v) (azure_sessions s)) /\
  released s' =
    released s ++
    [LegacySession
       (if raises then v
        else mk_azure (az_session_id v) false
               (match az_websocket v with
                | Some _ => Some false
                | None => None
                end))].
Proof.
  intros Hid Hdumps Hv. cbv zeta.
  pose proof (cleanup_removes import_openai chat_completion insert
                websocket_close now id s cs transcript Hid Hdumps) as Hgone.
  split; [exact Hgone|]. clear Hgone.
  destruct (cleanup_unfold import_openai chat_completion insert websocket_close
              now id s cs transcript Hid Hdumps) as [lg0 ->].
  cbv zeta. rewrite Hv.
  change (azure_sessions (logger ?r ?x)) with (azure_sessions x).
  change (released (logger ?r ?x)) with (released x).
  rewrite (proj1 (proj2 (disconnect_fields _ _))),
    (proj2 (proj2 (proj2 (disconnect_fields _ _)))).
  cbn [azure_sessions released].
  set (s1 := save_call_metrics _ _ _ _).
  assert (H1 : azure_sessions s1 = azure_sessions s /\ released s1 = released s).
  { subst s1.
    rewrite (proj1 (save_call_metrics_fields _ _ _)),
      (proj1 (proj2 (save_call_metrics_fields _ _ _))).
    split; reflexivity. }
  destruct H1 as [Hz Hr]. unfold cleanup_session.
  destruct (az_websocket v) as [open|], websocket_close as [e|[]];
    cbn [azure_sessions released logger]; rewrite Hz, Hr; split; reflexivity.
Qed.
End TeardownEffects.

(** ** The further properties on sample sessions *)

Lemma start_event_resets_clock_witness :
  twilio_message None (Text (Wire.start_in "MZ02"))
    (playing_world 1000 1450 "item_7") =
  (mk_world
     (mk_session "CA01" true (Some (JStr "MZ02")) 0 JNull
        ["responsePart"%string] None)
     (mk_transport true []) (mk_transport true []) []
     [Info "Twilio stream started: {}" [JStr "MZ02"]], inr tt).
Proof.
  exact (start_event_resets_clock None (Wire.start_in "MZ02")
           (JDict [("streamSid", JStr "MZ02")]%string) (JStr "MZ02")
           (playing_world 1000 1450 "item_7") eq_refl eq_refl eq_refl).
Defined.

Lemma other_telephony_event_is_skipped_witness :
  twilio_message None (Text (JDict [("event", JStr "stop")]%string))
    (playing_world 1000 1450 "item_7") =
  (playing_world 1000 1450 "item_7", inr tt).
Proof.
  exact (other_telephony_event_is_skipped None
           (JDict [("event", JStr "stop")]%string) (JStr "stop")
           (playing_world 1000 1450 "item_7") eq_refl eq_refl eq_refl eq_refl).
Defined.

Lemma media_frames_forwarded_in_order_witness :
  let frames := [Text (Wire.media_in (JStr "20") (JStr "AAAA"));
                 Text (Wire.media_in (JStr "40") (JStr "BBBB"))] in
  let r := handle_twilio_to_openai None frames started_world in
  r.2 = inr tt /\
  sent (openai_ws r.1) =
    [Wire.audio_append (JStr "AAAA"); Wire.audio_append (JStr "BBBB")] /\
  twilio_ws r.1 = twilio_ws started_world /\
  mark_queue (session r.1) = [] /\
  log r.1 = [].
Proof.
  exact (media_frames_forwarded_in_order None
           [Text (Wire.media_in (JStr "20") (JStr "AAAA"));
            Text (Wire.media_in (JStr "40") (JStr "BBBB"))]
           [JStr "AAAA"; JStr "BBBB"] started_world eq_refl eq_refl).
Defined.

Lemma media_frame_without_payload_witness :
  let data := JDict [("event", JStr "media");
                     ("media", JDict [("timestamp", JStr "40")])]%string in
  handle_twilio_to_openai None
    [Text data; Text (Wire.media_in (JStr "60") (JStr "AAAA"))] started_world =
  (mk_world (set_latest_media_timestamp 40 (session started_world))
     (mk_transport true []) (mk_transport true []) []
     [Error "Error in Twilio to OpenAI handler" (KeyError "payload")],
   inl (KeyError "payload")).
Proof.
  exact (media_frame_without_payload None
           (JDict [("event", JStr "media");
                   ("media", JDict [("timestamp", JStr "40")])]%string)
           (JDict [("timestamp", JStr "40")]%string) (JStr "40") 40
           (KeyError "payload")
           [Text (Wire.media_in (JStr "60") (JStr "AAAA"))] started_world
           eq_refl eq_refl eq_refl eq_refl eq_refl).
Defined.

Lemma interruption_without_item_witness :
  let w := playing_world 1000 1450 "" in
  let r := _handle_speech_interruption false w in
  r.2 = inr tt /\
  openai_ws r.1 = openai_ws w /\
  sent (twilio_ws r.1) = [Wire.clear (JStr "MZ01")] /\
  mark_queue (session r.1) = [] /\
  last_assistant_item (session r.1) = JNull /\
  response_start_timestamp (session r.1) = None.
Proof.
  exact (interruption_without_item false (playing_world 1000 1450 "") 1000
           ltac:(discriminate) eq_refl eq_refl eq_refl).
Defined.

Lemma interruption_on_closed_model_connection_witness :
  let r := _handle_speech_interruption false model_gone_world in
  r.2 = inr tt /\
  session r.1 = session model_gone_world /\
  openai_ws r.1 = openai_ws model_gone_world /\
  twilio_ws r.1 = twilio_ws model_gone_world /\
  last (log r.1) =
    Some (Error "Error handling speech interruption" ConnectionClosed).
Proof.
  exact (interruption_on_closed_model_connection false model_gone_world 1000
           ltac:(discriminate) eq_refl eq_refl eq_refl).
Defined.

Lemma second_interruption_is_noop_witness :
  let w1 := (_handle_speech_interruption false
               (playing_world 1000 1450 "item_7")).1 in
  _handle_speech_interruption false w1 = (w1, inr tt).
Proof.
  exact (second_interruption_is_noop false (playing_world 1000 1450 "item_7")
           eq_refl eq_refl).
Defined.

Lemma undecodable_delta_is_dropped_witness :
  _handle_audio_delta false (Wire.audio_delta "item_1" "T") started_world =
  (logged (Error "Error handling audio delta" BinasciiError) started_world,
   inr tt).
Proof.
  exact (undecodable_delta_is_dropped false (Wire.audio_delta "item_1" "T")
           BinasciiError started_world eq_refl).
Defined.

Lemma audio_delta_on_closed_telephony_witness :
  _handle_audio_delta false (Wire.audio_delta "item_1" "TWFu")
    telephony_gone_world =
  (logged (Error "Error handling audio delta" ConnectionClosed)
     telephony_gone_world, inr tt).
Proof.
  exact (audio_delta_on_closed_telephony false
           (Wire.audio_delta "item_1" "TWFu") ["M"; "a"; "n"]%char
           telephony_gone_world eq_refl eq_refl).
Defined.

Lemma untyped_model_message_ends_pump_witness :
  handle_openai_to_twilio false None None None
    [Text (JDict [("event", JStr "ping")]%string);
     Text (Wire.audio_delta "item_1" "TWFu")] started_world =
  (logged (Error "Error in OpenAI to Twilio handler" (KeyError "type"))
     started_world, inl (KeyError "type")).
Proof.
  exact (untyped_model_message_ends_pump false None None None
           (Text (JDict [("event", JStr "ping")]%string)) (KeyError "type")
           [Text (Wire.audio_delta "item_1" "TWFu")] started_world eq_refl).
Defined.

Lemma unhandled_model_event_only_logged_witness :
  let w := playing_world 1000 1450 "item_7" in
  let r := openai_message false None None None
             (Text (JDict [("type", JStr "error")]%string)) w in
  r.2 = inr tt /\
  session r.1 = session w /\
  openai_ws r.1 = openai_ws w /\
  twilio_ws r.1 = twilio_ws w /\
  yielded r.1 = yielded w.
Proof.
  exact (unhandled_model_event_only_logged false None None None
           (JDict [("type", JStr "error")]%string) (JStr "error")
           (playing_world 1000 1450 "item_7")
           eq_refl (or_introl eq_refl) eq_refl eq_refl eq_refl eq_refl eq_refl).
Defined.

Lemma forwarded_payload_is_canonical_witness :
  exists payload marks,
    sent (twilio_ws (_handle_audio_delta false
                       (Wire.audio_delta "item_1" "TWF=") started_world).1) =
      Wire.media (JStr "MZ01") payload :: marks /\
    is_canonical_base64 payload = true /\
    Base64.b64decode payload = inr ["M"; "a"]%char.
Proof.
  exact (forwarded_payload_is_canonical false
           (Wire.audio_delta "item_1" "TWF=") ["M"; "a"]%char started_world
           eq_refl eq_refl).
Defined.

Lemma stray_character_is_removed_witness :
  let delta := ("TW" +:+ String "010" "Fu")%string in
  Base64.b64decode delta = Base64.b64decode "TWFu" /\
  exists marks,
    sent (twilio_ws (_handle_audio_delta false
                       (Wire.audio_delta "item_1" delta) started_world).1) =
      Wire.media (JStr "MZ01") "TWFu" :: marks.
Proof.
  exact (stray_character_is_removed false
           (Wire.audio_delta "item_1" ("TW" +:+ String "010" "Fu"))
           "TW" "Fu" "010" started_world
           eq_refl eq_refl eq_refl eq_refl eq_refl eq_refl).
Defined.

Lemma delta_after_interruption_anchors_afresh_witness :
  let w1 := (_handle_speech_interruption false
               (playing_world 1000 1450 "item_7")).1 in
  let r := _handle_audio_delta false (Wire.audio_delta "item_8" "TWFu") w1 in
  r.2 = inr tt /\
  response_start_timestamp (session r.1) = Some 1450 /\
  mark_queue (session r.1) = ["responsePart"%string].
Proof.
  exact (delta_after_interruption_anchors_afresh false
           (Wire.audio_delta "item_8" "TWFu") ["M"; "a"; "n"]%char 1000
           (playing_world 1000 1450 "item_7")
           ltac:(discriminate) eq_refl eq_refl eq_refl eq_refl eq_refl).
Defined.

Lemma relay_only_extends_witness :
  extends (fresh_world "CA01")
    (for_each (relay_step false None None None None) sample_run
       (fresh_world "CA01")).1.
Proof.
  apply (relay_only_extends false None None None None);
    intros; apply keeps_same; try typeclasses eauto; reflexivity.
Defined.

Lemma model_pump_keeps_clock_witness :
  same_clock (playing_world 1000 1450 "item_7")
    (handle_openai_to_twilio false None None None
       [Text (Wire.audio_delta "item_8" "TWFu");
        Text (JDict [("type", JStr "input_audio_buffer.speech_started")]%string);
        Malformed "{"]
       (playing_world 1000 1450 "item_7")).1.
Proof.
  apply (model_pump_keeps_clock false None None None);
    intros; apply keeps_same; try typeclasses eauto; reflexivity.
Defined.

Lemma model_pump_writes_only_truncates_witness :
  writes_to_model is_truncate (playing_world 1000 1450 "item_7")
    (handle_openai_to_twilio false None None None
       [Text (Wire.audio_delta "item_8" "TWFu");
        Text (JDict [("type", JStr "input_audio_buffer.speech_started")]%string);
        Malformed "{"]
       (playing_world 1000 1450 "item_7")).1.
Proof.
  apply (model_pump_writes_only_truncates false None None None);
    intros; apply keeps_same; try typeclasses eauto; reflexivity.
Defined.

Lemma telephony_pump_only_appends_audio_witness :
  let w := playing_world 1000 1450 "item_7" in
  let w' := (handle_twilio_to_openai None
               [Text (Wire.media_in (JStr "20") (JStr "AAAA"));
                Text (Wire.mark_in "responsePart");
                Text (Wire.start_in "MZ02");
                Malformed "{"] w).1 in
  same_telephony w w' /\ writes_to_model is_audio_append w w'.
Proof.
  apply (telephony_pump_only_appends_audio None);
    apply keeps_same; try typeclasses eauto; reflexivity.
Defined.

Lemma mark_queue_holds_only_marks_witness :
  tokens_are_marks
    (for_each (relay_step false None None None None) sample_run
       (playing_world 1000 1450 "item_7")).1.
Proof.
  apply (mark_queue_holds_only_marks false None None None None);
    [intros; apply keeps_same; try typeclasses eauto; reflexivity..|].
  repeat constructor.
Defined.

Lemma cleanup_removes_only_that_call_witness :
  let s' := Main.cleanup_call_session (inr tt) (fun _ => inr "summary"%string)
              (fun _ => Main.Inserted) (inr tt) 160 "CA01" one_call_server in
  Main.active_sessions s' = delete "CA01" (Main.active_sessions one_call_server) /\
  Main.connections s' = delete "CA01" (Main.connections one_call_server).
Proof.
  apply (cleanup_removes_only_that_call (inr tt) (fun _ => inr "summary"%string)
           (fun _ => Main.Inserted) (inr tt) 160 "CA01" one_call_server
           sample_call [hello_entry]).
  - vm_compute. reflexivity.
  - reflexivity.
Defined.


Lemma cleanup_closes_realtime_session_witness :
  let s' := Main.cleanup_call_session (inr tt) (fun _ => inr "summary"%string)
              (fun _ => Main.Inserted) (inr tt) 160 "CA01" one_call_server in
  exists w',
    Main.released s' = [Main.OpenAISession w'] /\
    is_active (session w') = false /\
    openai_ws w' = mk_transport false [] /\
    twilio_ws w' = mk_transport true [] /\
    mark_queue (session w') = [] /\
    session_id (session w') = "CA01"%string.
Proof.
  refine (cleanup_closes_realtime_session (inr tt)
            (fun _ => inr "summary"%string) (fun _ => Main.Inserted) (inr tt)
            160 "CA01" one_call_server sample_call [hello_entry]
            started_world _ eq_refl eq_refl).
  vm_compute. reflexivity.
Defined.

Lemma cleanup_abandoned_on_unserialisable_log_witness :
  let s' := Main.cleanup_call_session (inr tt) (fun _ => inr "summary"%string)
              (fun _ => Main.Inserted) (inr tt) 160 "CA01" typed_log_server in
  Main.connections s' = ∅ /\
  Main.call_metrics s' = [] /\
  Main.released s' = [] /\
  last (Main.log s') =
    Some (Main.Error "Error cleaning up call session {}" ["CA01"%string]
            TypeError).
Proof.
  pose proof (cleanup_abandoned_on_unserialisable_log (inr tt)
                (fun _ => inr "summary"%string) (fun _ => Main.Inserted)
                (inr tt) 160 "CA01" typed_log_server typed_call TypeError
                ltac:(vm_compute; reflexivity) eq_refl)
    as (_ & Hc & _ & Hm & Hr & _ & Hl).
  exact (conj Hc (conj Hm (conj Hr Hl))).
Defined.

Lemma cleanup_releases_legacy_session_witness :
  let s' := Main.cleanup_call_session (inr tt) (fun _ => inr "summary"%string)
              (fun _ => Main.Inserted) (inl ConnectionClosed) 160 "CA01"
              legacy_server in
  Main.active_sessions s' !! "CA01"%string = None /\
  Main.azure_sessions s' = Main.azure_sessions legacy_server /\
  Main.released s' = [Main.LegacySession legacy_voice].
Proof.
  refine (cleanup_releases_legacy_session (inr tt)
            (fun _ => inr "summary"%string) (fun _ => Main.Inserted)
            (inl ConnectionClosed) 160 "CA01" legacy_server legacy_call []
            legacy_voice _ eq_refl eq_refl).
  vm_compute. reflexivity.
Defined.

Lemma create_session_sends_configuration_witness :
  let r := Session.create_session (inr true) "CA01"
             "You are a helpful assistant." "alloy"
             (JFloat (S754_finite false 3602879701896397 (-52)))
             (Some "Hello! How can I assist you today?"%string)
             (playing_world 1000 1450 "item_7") in
  r.2 = inr (mk_session "CA01" true None 0 JNull [] None) /\
  session r.1 = mk_session "CA01" true None 0 JNull [] None /\
  sent (openai_ws r.1) =
    [JDict [("type", JStr "session.update");
            ("session",
             JDict [("turn_detection", JDict [("type", JStr "server_vad")]);
                    ("input_audio_format", JStr "g711_ulaw");
                    ("output_audio_format", JStr "g711_ulaw");
                    ("voice", JStr "alloy");
                    ("instructions", JStr "You are a helpful assistant.");
                    ("modalities", JList [JStr "text"; JStr "audio"]);
                    ("temperature",
                     JFloat (S754_finite false 3602879701896397 (-52)));
                    ("max_response_output_tokens", JInt 4096)])];
     JDict [("type", JStr "conversation.item.create");
            ("item",
             JDict [("type", JStr "message"); ("role", JStr "user");
                    ("content",
                     JList [JDict [("type", JStr "input_text");
                                   ("text",
                                    JStr "Please say: Hello! How can I assist you today?")]])])];
     JDict [("type", JStr "response.create")]]%string.
Proof.
  pose proof (create_session_sends_configuration "CA01"
                "You are a helpful assistant." "alloy"
                (JFloat (S754_finite false 3602879701896397 (-52)))
                (Some "Hello! How can I assist you today?"%string)
                ConnectionClosed (playing_world 1000 1450 "item_7"))
    as ((Hr & Hs & Ho & _) & _).
  exact (conj Hr (conj Hs (f_equal sent Ho))).
Defined.

Lemma inject_rag_context_sends_one_item_witness :
  let r := Session.inject_rag_context "Open 9 to 5." "When are you open?"
             started_world in
  r.2 = inr tt /\
  sent (openai_ws r.1) =
    [JDict [("type", JStr "conversation.item.create");
            ("item",
             JDict [("type", JStr "message"); ("role", JStr "system");
                    ("content",
                     JList [JDict [("type", JStr "input_text");
                                   ("text",
                                    JStr "Context for the question 'When are you open?': Open 9 to 5.")]])])]]%string.
Proof.
  pose proof (inject_rag_context_sends_one_item "Open 9 to 5."
                "When are you open?" started_world) as (Hr & _ & _ & Hs & _).
  exact (conj Hr (Hs eq_refl)).
Defined.
